(** * Anime-Movie-API: the Express routers for movies, anime and TV shows

    The gateway is three routers (movies, anime, tvShows).  Every route
    builds an upstream URL, awaits [axios.get], reshapes the JSON it got
    and sends it; failures go through [handleError].

    The development has three layers:
    - [JS]: the JavaScript values and the language operations the routers
      use (property reads, truthiness, [+] on strings, [>], [slice], [map],
      object spread, [URLSearchParams]);
    - [Http]: requests, responses and the handler monad (upstream calls
      are recorded in order, exceptions propagate to the nearest [catch]);
    - [Movies], [Anime], [TvShows]: the routes, one definition per route.

    Modelling conventions.
    - Numbers are exact decimals [m * 10^e] together with NaN and the two
      infinities; every binary64 value is such a decimal.  Rounding of a
      literal to binary64 is outside the model: where a statement
      depends on a comparison or on the digits of a number, it is made
      for numbers that binary64 holds exactly (integers below 2^53), or
      in the direction in which rounding cannot change the outcome.
    - Strings are sequences of bytes, the UTF-8 form of the JavaScript
      string; string-to-number conversion trims the white space and line
      terminators of the language, ASCII and other.
    - Conversion of an object to a string gives "[object Object]";
      JavaScript throws instead when the object has a [toString] key of
      its own.  The statements that convert a value of the request or of
      the upstream exclude such objects ([parsed], [simple]).
    - The framework is Express 4 (the routes use its optional-parameter
      syntax), with its default query parser.
    - A response is the status code written and what Express is given to
      send: the value handed to [send] or [json], before it is
      serialised, or the status text of a code.  What Express and Node
      then leave out (the body of a reply to HEAD, or with a 1xx, 204,
      205 or 304 status) is theirs; requests carry no cache validator.
    - The [options] object given to provider A calls (the authorisation
      header) is constant and belongs to the upstream.
    - Log lines ([logger.info], [logger.error]) are not part of a
      response and are left out. *)

From Stdlib Require Import ZArith List String Ascii Bool Lia DecimalString.
From Stdlib Require DecimalN DecimalPos.
Import ListNotations.
Open Scope list_scope.
Open Scope string_scope.
Open Scope Z_scope.

Set Warnings "-register-all".

Module JS.

(** ** Values *)

Inductive number :=
| NaN
| Inf (negative : bool)
| Fin (m e : Z).

Inductive value :=
| VUndefined
| VNull
| VBool (b : bool)
| VNum (n : number)
| VStr (s : string)
| VArr (items : list value)
| VObj (props : list (string * value)).

(** An integer literal such as [1], [20] or [404]. *)
Definition int (z : Z) : value := VNum (Fin z 0).

(** Outcome of evaluating an expression: a value, or a thrown exception. *)
Inductive result (A : Type) :=
| Ok (a : A)
| Throw (exn : value).
Arguments Ok {A} a.
Arguments Throw {A} exn.

Definition bind {A B} (c : result A) (k : A -> result B) : result B :=
  match c with
  | Ok a => k a
  | Throw e => Throw e
  end.

Notation "'let*' x ':=' c 'in' k" := (bind c (fun x => k))
  (at level 10, x name, c at level 100, k at level 200).

(** The runtime's [TypeError]; only [message] is ever read from it. *)
Definition TypeError (msg : string) : value := VObj [("message", VStr msg)].

(** ** Numbers *)

Definition fin_compare (m1 e1 m2 e2 : Z) : comparison :=
  let k := Z.min e1 e2 in
  (m1 * 10 ^ (e1 - k) ?= m2 * 10 ^ (e2 - k)).

(** [a < b] on numbers; false as soon as one side is NaN. *)
Definition number_lt (a b : number) : bool :=
  match a, b with
  | NaN, _ => false
  | _, NaN => false
  | Inf true, Inf true => false
  | Inf true, _ => true
  | Inf false, _ => false
  | Fin _ _, Inf negative => negb negative
  | Fin m1 e1, Fin m2 e2 =>
      match fin_compare m1 e1 m2 e2 with Lt => true | _ => false end
  end.

Definition negate (n : number) : number :=
  match n with
  | NaN => NaN
  | Inf b => Inf (negb b)
  | Fin m e => Fin (- m) e
  end.

Definition digits_of (z : Z) : string :=
  NilZero.string_of_uint (N.to_uint (Z.to_N (Z.abs z))).

Fixpoint strip_trailing_zeros (s : string) : string :=
  match s with
  | EmptyString => EmptyString
  | String c r =>
      let r' := strip_trailing_zeros r in
      if Ascii.eqb c "0" && String.eqb r' "" then "" else String c r'
  end.

Fixpoint zeros (n : nat) : string :=
  match n with
  | O => ""
  | S k => String "0" (zeros k)
  end.

(** Number::toString, radix 10. *)
Definition number_to_string (x : number) : string :=
  match x with
  | NaN => "NaN"
  | Inf false => "Infinity"
  | Inf true => "-Infinity"
  | Fin m e =>
      if m =? 0 then "0" else
      let sign := if m <? 0 then "-" else "" in
      let ds0 := digits_of m in
      let ds := strip_trailing_zeros ds0 in
      let k := Z.of_nat (String.length ds) in
      let n := Z.of_nat (String.length ds0) + e in
      sign ++
      (if (k <=? n) && (n <=? 21) then ds ++ zeros (Z.to_nat (n - k))
       else if (0 <? n) && (n <=? 21) then
         substring 0 (Z.to_nat n) ds ++ "." ++
         substring (Z.to_nat n) (Z.to_nat (k - n)) ds
       else if (-6 <? n) && (n <=? 0) then "0." ++ zeros (Z.to_nat (- n)) ++ ds
       else
         let ex := (if n - 1 <? 0 then "-" else "+") ++ digits_of (n - 1) in
         if k =? 1 then ds ++ "e" ++ ex
         else substring 0 1 ds ++ "." ++ substring 1 (Z.to_nat (k - 1)) ds
              ++ "e" ++ ex)
  end.

(** ** String to number (StringToNumber) *)

Definition is_space (c : ascii) : bool :=
  let n := N_of_ascii c in
  ((9 <=? n) && (n <=? 13) || (n =? 32))%N.

(** U+00A0 in UTF-8. *)
Definition space2 (a b : N) : bool := ((a =? 194) && (b =? 160))%N.

(** The three-byte white space and line terminators: U+1680,
    U+2000 to U+200A, U+2028, U+2029, U+202F, U+205F, U+3000, U+FEFF. *)
Definition space3 (a b c : N) : bool :=
  ((a =? 225) && (b =? 154) && (c =? 128) ||
   (a =? 226) && (b =? 128) &&
     ((128 <=? c) && (c <=? 138) || (c =? 168) || (c =? 169) || (c =? 175)) ||
   (a =? 226) && (b =? 129) && (c =? 159) ||
   (a =? 227) && (b =? 128) && (c =? 128) ||
   (a =? 239) && (b =? 187) && (c =? 191))%N.

(** Drops the white space a string starts with; with [backwards] the
    string is read from its end, the bytes of a character in reverse. *)
Fixpoint strip (backwards : bool) (s : string) : string :=
  match s with
  | EmptyString => EmptyString
  | String a r =>
      if is_space a then strip backwards r else
      match r with
      | String b r' =>
          let x := N_of_ascii a in
          let y := N_of_ascii b in
          if (if backwards then space2 y x else space2 x y)
          then strip backwards r' else
          match r' with
          | String c r'' =>
              let z := N_of_ascii c in
              if (if backwards then space3 z y x else space3 x y z)
              then strip backwards r'' else s
          | EmptyString => s
          end
      | EmptyString => s
      end
  end.

Definition reverse (s : string) : string :=
  string_of_list_ascii (List.rev (list_ascii_of_string s)).

Definition trim (s : string) : string :=
  reverse (strip true (reverse (strip false s))).

Definition digit_val (base : Z) (c : ascii) : option Z :=
  let n := Z.of_N (N_of_ascii c) in
  let d := if (48 <=? n) && (n <=? 57) then n - 48
           else if (97 <=? n) && (n <=? 122) then n - 87
           else if (65 <=? n) && (n <=? 90) then n - 55
           else base in
  if d <? base then Some d else None.

(** Reads the longest run of digits: its value on top of [acc], how many
    digits were read, and the rest of the string. *)
Fixpoint read_digits (base acc : Z) (count : nat) (s : string)
  : Z * nat * string :=
  match s with
  | EmptyString => (acc, count, s)
  | String c r =>
      match digit_val base c with
      | Some d => read_digits base (acc * base + d) (S count) r
      | None => (acc, count, s)
      end
  end.

Definition read_exponent (s : string) : option (Z * string) :=
  let '(neg, s1) :=
    match s with
    | String "-" r => (true, r)
    | String "+" r => (false, r)
    | _ => (false, s)
    end in
  let '(v, n, rest) := read_digits 10 0 0 s1 in
  match n with
  | O => None
  | S _ => Some (if neg then - v else v, rest)
  end.

Definition unsigned_decimal (s : string) : number :=
  if String.eqb s "Infinity" then Inf false else
  let '(i, ni, s1) := read_digits 10 0 0 s in
  let '(m, nf, s2) :=
    match s1 with
    | String "." r => read_digits 10 i 0 r
    | _ => (i, O, s1)
    end in
  match (ni + nf)%nat with
  | O => NaN
  | S _ =>
      match s2 with
      | EmptyString => Fin m (- Z.of_nat nf)
      | String c r =>
          if Ascii.eqb c "e" || Ascii.eqb c "E" then
            match read_exponent r with
            | Some (x, EmptyString) => Fin m (x - Z.of_nat nf)
            | _ => NaN
            end
          else NaN
      end
  end.

Definition non_decimal (base : Z) (s : string) : number :=
  let '(v, n, rest) := read_digits base 0 0 s in
  match n, rest with
  | S _, EmptyString => Fin v 0
  | _, _ => NaN
  end.

Definition string_to_number (s : string) : number :=
  let t := trim s in
  match t with
  | EmptyString => Fin 0 0
  | String "+" r => unsigned_decimal r
  | String "-" r => negate (unsigned_decimal r)
  | String "0" (String x r) =>
      if Ascii.eqb x "x" || Ascii.eqb x "X" then non_decimal 16 r
      else if Ascii.eqb x "o" || Ascii.eqb x "O" then non_decimal 8 r
      else if Ascii.eqb x "b" || Ascii.eqb x "B" then non_decimal 2 r
      else unsigned_decimal t
  | _ => unsigned_decimal t
  end.

(** ** Conversions *)

Definition nullish (v : value) : bool :=
  match v with
  | VUndefined | VNull => true
  | _ => false
  end.

(** ToBoolean. *)
Definition truthy (v : value) : bool :=
  match v with
  | VUndefined | VNull => false
  | VBool b => b
  | VNum NaN => false
  | VNum (Inf _) => true
  | VNum (Fin m _) => negb (m =? 0)
  | VStr s => negb (String.eqb s "")
  | VArr _ | VObj _ => true
  end.

(** ToString; an array is the comma-join of its elements, null and
    undefined elements giving the empty string.  A number is printed
    with the digits of its decimal, which are JavaScript's when the
    decimal is the shortest that reads back to the same binary64 value
    (every integer below 2^53).  An object gives "[object Object]", as
    JavaScript does unless the object has a [toString] key of its own. *)
Fixpoint to_string (v : value) : string :=
  match v with
  | VUndefined => "undefined"
  | VNull => "null"
  | VBool true => "true"
  | VBool false => "false"
  | VNum n => number_to_string n
  | VStr s => s
  | VArr l =>
      (fix join (l : list value) : string :=
         match l with
         | [] => ""
         | x :: r =>
             let sx := if nullish x then "" else to_string x in
             match r with
             | [] => sx
             | _ :: _ => sx ++ "," ++ join r
             end
         end) l
  | VObj _ => "[object Object]"
  end.

(** ToPrimitive (arrays and plain objects go through [toString]). *)
Definition to_primitive (v : value) : value :=
  match v with
  | VArr _ | VObj _ => VStr (to_string v)
  | _ => v
  end.

(** ToNumber. *)
Definition to_number (v : value) : number :=
  match to_primitive v with
  | VUndefined => NaN
  | VNull => Fin 0 0
  | VBool b => Fin (if b then 1 else 0) 0
  | VNum n => n
  | VStr s => string_to_number s
  | _ => NaN
  end.

(** ToInt32, the conversion behind [x |= 0]. *)
Definition to_int32 (n : number) : Z :=
  match n with
  | NaN | Inf _ => 0
  | Fin m e =>
      let t := if 0 <=? e then m * 10 ^ e else Z.quot m (10 ^ (- e)) in
      (t + 2 ^ 31) mod 2 ^ 32 - 2 ^ 31
  end.

(** [x > y]: two strings are compared as strings, anything else as
    numbers. *)
Definition gt (x y : value) : bool :=
  match to_primitive x, to_primitive y with
  | VStr a, VStr b => String.ltb b a
  | px, py => number_lt (to_number py) (to_number px)
  end.

(** [a || b]. *)
Definition or (a b : value) : value := if truthy a then a else b.

(** [prefix + v] where [prefix] is a string. *)
Definition concat (prefix : string) (v : value) : value :=
  VStr (prefix ++ to_string v).

(** [a === s] against a string literal. *)
Definition strict_eq_string (a : value) (s : string) : bool :=
  match a with
  | VStr t => String.eqb t s
  | _ => false
  end.

(** [list.includes(v)] for an array of string literals. *)
Definition includes (l : list string) (v : value) : bool :=
  existsb (strict_eq_string v) l.

(** ** Properties *)

Fixpoint assoc (k : string) (l : list (string * value)) : option value :=
  match l with
  | [] => None
  | (k', v) :: r => if String.eqb k' k then Some v else assoc k r
  end.

(** [v.k].  Own data properties of plain objects are modelled; the routers
    read fixed names, none of which is a built-in property of a string,
    number, boolean or array, so a read on those yields undefined. *)
Definition get (v : value) (k : string) : result value :=
  match v with
  | VUndefined | VNull =>
      Throw (TypeError ("Cannot read properties of " ++ to_string v ++
                        " (reading '" ++ k ++ "')"))
  | VObj props =>
      Ok (match assoc k props with Some x => x | None => VUndefined end)
  | _ => Ok VUndefined
  end.

(** Defines [k] on a property list: an existing key keeps its place. *)
Fixpoint put (k : string) (v : value) (l : list (string * value))
  : list (string * value) :=
  match l with
  | [] => [(k, v)]
  | (k', v') :: r =>
      if String.eqb k' k then (k, v) :: r else (k', v') :: put k v r
  end.

(** [o.k = v] in strict code (modules are strict).  A named property set
    on an array leaves its elements as they are and is not part of the
    array's JSON form, so the array is returned as it is. *)
Definition set (o : value) (k : string) (v : value) : result value :=
  match o with
  | VObj props => Ok (VObj (put k v props))
  | VArr l => Ok (VArr l)
  | VUndefined | VNull =>
      Throw (TypeError ("Cannot set properties of " ++ to_string o ++
                        " (setting '" ++ k ++ "')"))
  | _ =>
      Throw (TypeError ("Cannot create property '" ++ k ++ "' on " ++
                        to_string o))
  end.

Definition index_key (i : nat) : string :=
  NilZero.string_of_uint (Nat.to_uint i).

(** The own enumerable properties copied by [{...v}]. *)
Definition own_props (v : value) : list (string * value) :=
  match v with
  | VObj props => props
  | VArr l => combine (List.map index_key (seq 0 (List.length l))) l
  | VStr s =>
      combine (List.map index_key (seq 0 (String.length s)))
              (List.map (fun c => VStr (String c "")) (list_ascii_of_string s))
  | _ => []
  end.

(** ** Methods *)

(** [v.slice(0, n)]. *)
Definition slice (v : value) (n : nat) : result value :=
  match v with
  | VArr l => Ok (VArr (firstn n l))
  | VStr s => Ok (VStr (substring 0 n s))
  | VUndefined | VNull =>
      Throw (TypeError ("Cannot read properties of " ++ to_string v ++
                        " (reading 'slice')"))
  | _ => Throw (TypeError "slice is not a function")
  end.

Fixpoint mapM (f : value -> result value) (l : list value)
  : result (list value) :=
  match l with
  | [] => Ok []
  | x :: r =>
      let* y := f x in
      let* ys := mapM f r in
      Ok (y :: ys)
  end.

(** An object literal [{...base, k1: e1, k2: e2}]: the initialisers are
    evaluated in order, each defining its key on the object so far. *)
Fixpoint object_from (base : list (string * value))
    (fields : list (string * result value)) : result value :=
  match fields with
  | [] => Ok (VObj base)
  | (k, e) :: r => let* v := e in object_from (put k v base) r
  end.

Definition object (fields : list (string * result value)) : result value :=
  object_from [] fields.

(** An array literal [[e1, e2, e3]]. *)
Fixpoint array_from (elems : list (result value)) : result (list value) :=
  match elems with
  | [] => Ok []
  | e :: r => let* v := e in let* vs := array_from r in Ok (v :: vs)
  end.

Definition array (elems : list (result value)) : result value :=
  let* vs := array_from elems in Ok (VArr vs).

(** A chain of property reads [v.k1.k2.k3]. *)
Fixpoint path (v : value) (ks : list string) : result value :=
  match ks with
  | [] => Ok v
  | k :: r => let* x := get v k in path x r
  end.

(** [v.map(f)]. *)
Definition map (v : value) (f : value -> result value) : result value :=
  match v with
  | VArr l => let* ys := mapM f l in Ok (VArr ys)
  | VUndefined | VNull =>
      Throw (TypeError ("Cannot read properties of " ++ to_string v ++
                        " (reading 'map')"))
  | _ => Throw (TypeError "map is not a function")
  end.

(** ** URLSearchParams *)

Definition hex_digit (n : N) : ascii :=
  ascii_of_N (if (n <? 10)%N then 48 + n else 55 + n)%N.

(** application/x-www-form-urlencoded byte serialisation. *)
Definition encode_byte (c : ascii) : string :=
  let n := N_of_ascii c in
  if ((48 <=? n) && (n <=? 57) || (65 <=? n) && (n <=? 90) ||
      (97 <=? n) && (n <=? 122) ||
      (n =? 42) || (n =? 45) || (n =? 46) || (n =? 95))%N
  then String c ""
  else if (n =? 32)%N then "+"
  else String "%" (String (hex_digit (n / 16)) (String (hex_digit (n mod 16)) "")).

Fixpoint form_encode (s : string) : string :=
  match s with
  | EmptyString => ""
  | String c r => encode_byte c ++ form_encode r
  end.

(** [new URLSearchParams(record).toString()]. *)
Fixpoint search_params (l : list (string * value)) : string :=
  match l with
  | [] => ""
  | (k, v) :: r =>
      let kv := form_encode k ++ "=" ++ form_encode (to_string v) in
      match r with
      | [] => kv
      | _ :: _ => kv ++ "&" ++ search_params r
      end
  end.

End JS.

Import JS.

(** * Requests, responses and handlers *)

Module Http.

(** What Express hands to a handler: the path parameters it bound (always
    strings, and never empty: a path segment bound to a parameter has at
    least one character) and the parsed query string (strings, or arrays
    and objects for repeated and bracketed keys). *)
Record Request := {
  params : list (string * string);
  query : list (string * value)
}.

(** [request.params.k] *)
Definition param (request : Request) (k : string) : value :=
  match List.find (fun p => String.eqb (fst p) k) (params request) with
  | Some p => VStr (snd p)
  | None => VUndefined
  end.

(** [request.query.k] *)
Definition query_param (request : Request) (k : string) : value :=
  match assoc k (query request) with
  | Some v => v
  | None => VUndefined
  end.

(** What Express is given to send: a value, or the status text of a code
    (what [send] makes of a number). *)
Inductive Body :=
| Sent (v : value)
| StatusText (code : value).

Coercion Sent : value >-> Body.

(** What the handler wrote: the status code and the body. *)
Record Response := {
  status : value;
  body : Body
}.

(** The configured base URLs ([URLs] of config/constants.js). *)
Record Config := {
  tmdb : string;
  jikan : string;
  image : string
}.

(** The upstream providers: for a URL, the body of the reply
    ([response.data]) or the error the promise is rejected with. *)
Definition Upstream := string -> result value.

(** A handler computation reads the upstream and appends to the list of
    URLs requested so far. *)
Definition M (A : Type) : Type :=
  Upstream -> list string -> list string * result A.

Definition ret {A} (a : A) : M A := fun _ calls => (calls, Ok a).

Definition mbind {A B} (c : M A) (k : A -> M B) : M B :=
  fun up calls =>
    match c up calls with
    | (calls', Ok a) => k a up calls'
    | (calls', Throw e) => (calls', Throw e)
    end.

Definition lift {A} (r : result A) : M A := fun _ calls => (calls, r).

(** [await axios.get(url)]: the resolved response object carries the
    upstream body under [data]. *)
Definition axios_get (url : string) : M value :=
  fun up calls =>
    (calls ++ [url],
     match up url with
     | Ok d => Ok (VObj [("data", d)])
     | Throw e => Throw e
     end)%list.

(** [try { c } catch (err) { h err }] *)
Definition try_catch {A} (c : M A) (h : value -> M A) : M A :=
  fun up calls =>
    match c up calls with
    | (calls', Ok a) => (calls', Ok a)
    | (calls', Throw e) => h e up calls'
    end.

(** The code the response head is written with: [statusCode |= 0], which
    must lie between 100 and 999. *)
Definition status_code (s : value) : option Z :=
  let c := to_int32 (to_number s) in
  if (100 <=? c) && (c <=? 999) then Some c else None.

(** What writing the head with any other status throws. *)
Definition RangeError (s : value) : value :=
  VObj [("code", VStr "ERR_HTTP_INVALID_STATUS_CODE");
        ("message", VStr ("Invalid status code: " ++ to_string s))].

(** The response leaves with status [s], or the head cannot be written. *)
Definition write (s : value) (b : Body) : M Response :=
  match status_code s with
  | Some c => ret {| status := int c; body := b |}
  | None => lift (Throw (RangeError s))
  end.

(** [send] with the status set so far: a number handed to [send] is taken
    as the status, and its status text is what is sent. *)
Definition send_with (s : value) (v : value) : M Response :=
  match v with
  | VNum _ => write v (StatusText v)
  | _ => write s v
  end.

(** [response.send(v)] with the default status. *)
Definition send (v : value) : M Response := send_with (int 200) v.

(** [response.status(s).send(v)], also [.json(v)]. *)
Definition send_status (s : value) (v : value) : M Response := send_with s v.

(** Runs a handler against an upstream: the URLs requested, in order, and
    the response written (or the exception that escaped the handler). *)
Definition run (h : M Response) (up : Upstream) : list string * result Response :=
  h up [].

End Http.

Import Http.

Notation "x <- c ;; k" := (mbind c (fun x => k))
  (at level 61, c at next level, right associativity).

Definition dquote : string := String (ascii_of_nat 34) "".

(** * routes/movies.js *)

Module Movies.
Section Routes.

Variable URLs : Config.

Definition handleError (err : value) : M Response :=
  r <- lift (get err "response") ;;
  if truthy r then
    s <- lift (get r "status") ;;
    send_status s (VStr "Error fetching data from API.")
  else
    q <- lift (get err "request") ;;
    if truthy q then
      send_status (int 500) (VStr "No response received from API.")
    else
      send_status (int 500) (VStr "Internal Server Error.").

(** GET /trending/movies/:time_window? *)
Definition trending_movies (request : Request) : M Response :=
  let time_window := or (param request "time_window") (VStr "week") in
  let allowedValues := ["week"; "day"] in
  if negb (includes allowedValues time_window) then
    send_status (int 400)
      (VObj [("error",
              VStr ("Invalid time_window value: " ++ dquote ++
                    to_string time_window ++ dquote ++
                    ". Allowed values are: " ++
                    String.concat ", " allowedValues))])
  else
    try_catch
      (let url := tmdb URLs ++ "/trending/movie/" ++ to_string time_window ++
                  "?language=en-US" in
       trending <- axios_get url ;;
       modifiedTrendingData <- lift (
         let* trendingData := path trending ["data"; "results"] in
         map trendingData (fun movie =>
           object_from (own_props movie) [
             ("backdrop_path",
              let* p := get movie "backdrop_path" in
              if truthy p then
                let* p := get movie "backdrop_path" in Ok (concat (image URLs) p)
              else Ok VNull);
             ("poster_path",
              let* p := get movie "poster_path" in
              if truthy p then
                let* p := get movie "poster_path" in Ok (concat (image URLs) p)
              else Ok VNull)])) ;;
       send modifiedTrendingData)
      handleError.

(** GET /popular/movies *)
Definition popular_movies (request : Request) : M Response :=
  try_catch
    (let url := tmdb URLs ++ "/movie/popular?language=en-US&page=1" in
     popular <- axios_get url ;;
     popularMovieArray <- lift (
       let* popularData := path popular ["data"; "results"] in
       let* first := slice popularData 20 in
       map first (fun movie =>
         object [
           ("id", get movie "id");
           ("original_language", get movie "original_language");
           ("original_title", get movie "original_title");
           ("title", get movie "title");
           ("overview", get movie "overview");
           ("backdrop_path",
            let* p := get movie "backdrop_path" in Ok (concat (image URLs) p));
           ("poster_path",
            let* p := get movie "poster_path" in Ok (concat (image URLs) p));
           ("release_date", get movie "release_date");
           ("vote_average", get movie "vote_average")])) ;;
     send popularMovieArray)
    handleError.

(** GET /upcoming/movies *)
Definition upcoming_movies (request : Request) : M Response :=
  try_catch
    (let url := tmdb URLs ++ "/movie/upcoming?language=en-US&page=1" in
     upcoming <- axios_get url ;;
     upcomingMovieArray <- lift (
       let* upcomingData := path upcoming ["data"; "results"] in
       let* first := slice upcomingData 20 in
       map first (fun movie =>
         object [
           ("id", get movie "id");
           ("original_language", get movie "original_language");
           ("original_title", get movie "original_title");
           ("overview", get movie "overview");
           ("title", get movie "title");
           ("backdrop_path",
            let* p := get movie "backdrop_path" in Ok (concat (image URLs) p));
           ("poster_path",
            let* p := get movie "poster_path" in Ok (concat (image URLs) p));
           ("release_date", get movie "release_date");
           ("vote_average", get movie "vote_average")])) ;;
     send upcomingMovieArray)
    handleError.

(** GET /search/movies *)
Definition search_movies (request : Request) : M Response :=
  let query := query_param request "query" in
  let fixedParams :=
    [("include_adult", VStr "false"); ("language", VStr "en-US");
     ("page", int 1)] in
  let queryParams :=
    search_params (put "query" (or query (VStr "")) fixedParams) in
  try_catch
    (let searchMovieUrl := tmdb URLs ++ "/search/movie?" ++ queryParams in
     searchMovie <- axios_get searchMovieUrl ;;
     searchedMovieArray <- lift (
       let* searchMovieData := path searchMovie ["data"; "results"] in
       let* first := slice searchMovieData 20 in
       map first (fun movie =>
         object [
           ("id", get movie "id");
           ("original_language", get movie "original_language");
           ("original_title", get movie "original_title");
           ("overview", get movie "overview");
           ("title", get movie "title");
           ("backdrop_path",
            let* p := get movie "backdrop_path" in Ok (concat (image URLs) p));
           ("poster_path",
            let* p := get movie "poster_path" in Ok (concat (image URLs) p));
           ("release_date", get movie "release_date");
           ("vote_average", get movie "vote_average")])) ;;
     send searchedMovieArray)
    handleError.

(** GET /images/movie/:id *)
Definition images_movie (request : Request) : M Response :=
  let movieId := param request "id" in
  try_catch
    (let fetchMovieImagesUrl :=
       tmdb URLs ++ "/movie/" ++ to_string movieId ++ "/images" in
     fetchedImages <- axios_get fetchMovieImagesUrl ;;
     fetchedImagesData <- lift (get fetchedImages "data") ;;
     backdropsArray <- lift (
       let* backdrops := get fetchedImagesData "backdrops" in
       let* mapped :=
         (if nullish backdrops then Ok VUndefined else
          let* first := slice backdrops 30 in
          map first (fun backdrop =>
            object [
              ("aspect_ratio", get backdrop "aspect_ratio");
              ("height", get backdrop "height");
              ("width", get backdrop "width");
              ("file_path",
               let* p := get backdrop "file_path" in
               Ok (concat (image URLs) p))])) in
       Ok (or mapped (VArr []))) ;;
     postersArray <- lift (
       let* posters := get fetchedImagesData "posters" in
       let* mapped :=
         (if nullish posters then Ok VUndefined else
          let* first := slice posters 30 in
          map first (fun poster =>
            object [
              ("aspect_ratio", get poster "aspect_ratio");
              ("height", get poster "height");
              ("width", get poster "width");
              ("file_path",
               let* p := get poster "file_path" in
               Ok (concat (image URLs) p))])) in
       Ok (or mapped (VArr []))) ;;
     send (VObj [("backdrops", backdropsArray); ("posters", postersArray)]))
    handleError.

End Routes.
End Movies.



(** * routes/anime.js *)

Module Anime.
Section Routes.

Variable URLs : Config.

Definition handleError (err : value) : M Response :=
  r <- lift (get err "response") ;;
  if truthy r then
    s <- lift (get r "status") ;;
    send_status s (VStr "Error fetching data from API.")
  else
    q <- lift (get err "request") ;;
    if truthy q then
      send_status (int 500) (VStr "No response received from API.")
    else
      send_status (int 500) (VStr "Internal Server Error.").

(** The arrow function given to [map] by the trending, popular and
    upcoming routes; the three copies in the source are the same text. *)
Definition anime_item (anime : value) : result value :=
  object [
    ("mal_id", get anime "mal_id");
    ("mal_url", get anime "url");
    ("images",
     array [
       path anime ["images"; "jpg"; "image_url"];
       path anime ["images"; "jpg"; "large_image_url"];
       (let* images := path anime ["trailer"; "images"] in
        let* maximum :=
          (if nullish images then Ok VUndefined
           else get images "maximum_image_url") in
        Ok (or maximum VNull))]);
    ("trailer",
     object [
       ("yt_id", path anime ["trailer"; "youtube_id"]);
       ("yt_url", path anime ["trailer"; "url"]);
       ("embed_url", path anime ["trailer"; "embed_url"])]);
    ("titles",
     object [
       ("default_title", get anime "title");
       ("japanese_title", get anime "title_japanese");
       ("english_title", get anime "title_english")]);
    ("episodes", get anime "episodes");
    ("rating", get anime "rating");
    ("type", get anime "type");
    ("source", get anime "source");
    ("status", get anime "status");
    ("score", get anime "score");
    ("rank", get anime "rank");
    ("popularity", get anime "popularity");
    ("synopsis", get anime "synopsis");
    ("backgroud", get anime "backgroud");
    ("season", get anime "season");
    ("year", get anime "year");
    ("genres",
     let* genres := get anime "genres" in
     map genres (fun genre => get genre "name"));
    ("themes",
     let* themes := get anime "themes" in
     map themes (fun theme => get theme "name"));
    ("demographics",
     let* demographics := get anime "demographics" in
     map demographics (fun demographic => get demographic "name"));
    ("explicit_genres",
     let* explicit_genres := get anime "explicit_genres" in
     map explicit_genres (fun genre => get genre "name"))].

(** GET /trending/anime *)
Definition trending_anime (request : Request) : M Response :=
  try_catch
    (let trendingAnimeUrl := jikan URLs ++ "/seasons/now" in
     trending <- axios_get trendingAnimeUrl ;;
     trendingAnimeArray <- lift (
       let* trendingAnimeData := path trending ["data"; "data"] in
       let* first := slice trendingAnimeData 20 in
       map first anime_item) ;;
     send trendingAnimeArray)
    handleError.

(** GET /popular/anime *)
Definition popular_anime (request : Request) : M Response :=
  try_catch
    (let popularAnimeUrl := jikan URLs ++ "/top/anime" in
     popular <- axios_get popularAnimeUrl ;;
     popularAnimeArray <- lift (
       let* popularAnimeData := path popular ["data"; "data"] in
       let* first := slice popularAnimeData 20 in
       map first anime_item) ;;
     send popularAnimeArray)
    handleError.

(** GET /upcoming/anime *)
Definition upcoming_anime (request : Request) : M Response :=
  try_catch
    (let upcomingAnimeUrl := jikan URLs ++ "/seasons/upcoming" in
     upcoming <- axios_get upcomingAnimeUrl ;;
     upcomingAnimeArray <- lift (
       let* upcomingAnimeData := path upcoming ["data"; "data"] in
       let* first := slice upcomingAnimeData 20 in
       map first anime_item) ;;
     send upcomingAnimeArray)
    handleError.

(** GET /search/anime/:id.  [searchAnimeData] is the detail body itself;
    the two assignments update it in place and it is what is sent. *)
Definition search_anime_id (request : Request) : M Response :=
  let animeId := param request "id" in
  try_catch
    (searchAnime <- axios_get (jikan URLs ++ "/anime/" ++ to_string animeId) ;;
     searchImages <-
       axios_get (jikan URLs ++ "/anime/" ++ to_string animeId ++ "/pictures") ;;
     searchVideos <-
       axios_get (jikan URLs ++ "/anime/" ++ to_string animeId ++ "/videos") ;;
     imagesData <- lift (path searchImages ["data"; "data"]) ;;
     searchAnimeData <- lift (get searchAnime "data") ;;
     videosData <- lift (path searchVideos ["data"; "data"]) ;;
     organizedImages <- lift (
       object [
         ("jpgs",
          map imagesData (fun image =>
            object [
              ("image_url", path image ["jpg"; "image_url"]);
              ("small_image_url", path image ["jpg"; "small_image_url"]);
              ("large_image_url", path image ["jpg"; "large_image_url"])]));
         ("webp",
          map imagesData (fun image =>
            object [
              ("image_url", path image ["webp"; "image_url"]);
              ("small_image_url", path image ["webp"; "small_image_url"]);
              ("large_image_url", path image ["webp"; "large_image_url"])]))]) ;;
     searchAnimeData <- lift (set searchAnimeData "images_data" organizedImages) ;;
     searchAnimeData <- lift (set searchAnimeData "videos" videosData) ;;
     send searchAnimeData)
    handleError.

(** GET /search/anime *)
Definition search_anime (request : Request) : M Response :=
  let queryParams := query request in
  let queryString := search_params queryParams in
  try_catch
    (let searchAnimeUrl :=
       if truthy (VStr queryString)
       then jikan URLs ++ "/anime?" ++ queryString
       else jikan URLs ++ "/anime" in
     searchAnime <- axios_get searchAnimeUrl ;;
     searchAnimeData <- lift (get searchAnime "data") ;;
     send searchAnimeData)
    handleError.

End Routes.
End Anime.

(** * routes/tvShows.js *)

Module TvShows.
Section Routes.

Variable URLs : Config.

Definition handleError (err : value) : M Response :=
  r <- lift (get err "response") ;;
  if truthy r then
    s <- lift (get r "status") ;;
    send_status s (VStr "Error fetching data from API.")
  else
    q <- lift (get err "request") ;;
    if truthy q then
      send_status (int 500) (VStr "No response received from API.")
    else
      send_status (int 500) (VStr "Internal Server Error.").

(** GET /trending/tv/:time_window? *)
Definition trending_tv (request : Request) : M Response :=
  let time_window := or (param request "time_window") (VStr "week") in
  let allowedValues := ["week"; "day"] in
  if negb (includes allowedValues time_window) then
    send_status (int 400)
      (VObj [("error",
              VStr ("Invalid time_window value: " ++ dquote ++
                    to_string time_window ++ dquote ++
                    ". Allowed values are: " ++
                    String.concat ", " allowedValues))])
  else
    try_catch
      (let url := tmdb URLs ++ "/trending/tv/" ++ to_string time_window ++
                  "?language=en-US" in
       trending <- axios_get url ;;
       modifiedTrendingData <- lift (
         let* trendingData := path trending ["data"; "results"] in
         map trendingData (fun movie =>
           object_from (own_props movie) [
             ("backdrop_path",
              let* p := get movie "backdrop_path" in
              if truthy p then
                let* p := get movie "backdrop_path" in Ok (concat (image URLs) p)
              else Ok VNull);
             ("poster_path",
              let* p := get movie "poster_path" in
              if truthy p then
                let* p := get movie "poster_path" in Ok (concat (image URLs) p)
              else Ok VNull)])) ;;
       send modifiedTrendingData)
      handleError.

(** GET /popular/tv.  [page] is the raw query value, or the number 1 when
    the query has none. *)
Definition popular_tv (request : Request) : M Response :=
  let page :=
    match query_param request "page" with
    | VUndefined => int 1
    | v => v
    end in
  try_catch
    (let url := tmdb URLs ++ "/tv/top_rated?language=en-US&page=" ++
                to_string page in
     popular <- axios_get url ;;
     popularData <- lift (get popular "data") ;;
     total_pages <- lift (get popularData "total_pages") ;;
     if gt page total_pages then
       notFound <- lift (
         object [
           ("pagination",
            object [
              ("current_page", Ok page);
              ("last_visible_page", get popularData "total_pages");
              ("has_next_page", Ok (VBool false));
              ("items",
               object [
                 ("total_pages", get popularData "total_pages");
                 ("total_results", get popularData "total_results")])]);
           ("results", Ok (VArr []));
           ("message", Ok (VStr "No results found for the requested page."))]) ;;
       send_status (int 404) notFound
     else
       modifiedPopularData <- lift (
         let* results := get popularData "results" in
         map results (fun tv =>
           object_from (own_props tv) [
             ("backdrop_path",
              let* p := get tv "backdrop_path" in
              if truthy p then
                let* p := get tv "backdrop_path" in Ok (concat (image URLs) p)
              else Ok VNull);
             ("poster_path",
              let* p := get tv "poster_path" in
              if truthy p then
                let* p := get tv "poster_path" in Ok (concat (image URLs) p)
              else Ok VNull)])) ;;
       pageInfo <- lift (
         object [
           ("current_page", get popularData "page");
           ("total_pages", get popularData "total_pages");
           ("total_results", get popularData "total_results")]) ;;
       send (VObj [("pagination", pageInfo);
                   ("popular_tv_shows", modifiedPopularData)]))
    handleError.

(** GET /search/tv *)
Definition search_tv (request : Request) : M Response :=
  let query := query_param request "query" in
  let fixedParams :=
    [("include_adult", VStr "false"); ("language", VStr "en-US");
     ("page", int 1)] in
  let queryParams :=
    search_params (put "query" (or query (VStr "")) fixedParams) in
  try_catch
    (let searchTvUrl := tmdb URLs ++ "/search/tv?" ++ queryParams in
     searchTv <- axios_get searchTvUrl ;;
     searchedTvArray <- lift (
       let* searchTvData := path searchTv ["data"; "results"] in
       let* first := slice searchTvData 20 in
       map first (fun tv =>
         object [
           ("id", get tv "id");
           ("original_language", get tv "original_language");
           ("original_name", get tv "original_name");
           ("overview", get tv "overview");
           ("name", get tv "name");
           ("backdrop_path",
            let* p := get tv "backdrop_path" in Ok (concat (image URLs) p));
           ("poster_path",
            let* p := get tv "poster_path" in Ok (concat (image URLs) p));
           ("first_air_date", get tv "first_air_date");
           ("vote_average", get tv "vote_average")])) ;;
     send searchedTvArray)
    handleError.

(** GET /images/tv/:id *)
Definition images_tv (request : Request) : M Response :=
  let tvId := param request "id" in
  try_catch
    (let fetchTvImagesUrl := tmdb URLs ++ "/tv/" ++ to_string tvId ++ "/images" in
     fetchedImages <- axios_get fetchTvImagesUrl ;;
     fetchedImagesData <- lift (get fetchedImages "data") ;;
     backdropsArray <- lift (
       let* backdrops := get fetchedImagesData "backdrops" in
       let* mapped :=
         (if nullish backdrops then Ok VUndefined else
          let* first := slice backdrops 30 in
          map first (fun backdrop =>
            object [
              ("aspect_ratio", get backdrop "aspect_ratio");
              ("height", get backdrop "height");
              ("width", get backdrop "width");
              ("file_path",
               let* p := get backdrop "file_path" in
               Ok (concat (image URLs) p))])) in
       Ok (or mapped (VArr []))) ;;
     postersArray <- lift (
       let* posters := get fetchedImagesData "posters" in
       let* mapped :=
         (if nullish posters then Ok VUndefined else
          let* first := slice posters 30 in
          map first (fun poster =>
            object [
              ("aspect_ratio", get poster "aspect_ratio");
              ("height", get poster "height");
              ("width", get poster "width");
              ("file_path",
               let* p := get poster "file_path" in
               Ok (concat (image URLs) p))])) in
       Ok (or mapped (VArr []))) ;;
     send (VObj [("backdrops", backdropsArray); ("posters", postersArray)]))
    handleError.

End Routes.
End TvShows.

(** * Vocabulary of the statements *)

(** The value read by [v.k] when [v] is neither null nor undefined. *)
Definition field (v : value) (k : string) : value :=
  match get v k with
  | Ok x => x
  | Throw _ => VUndefined
  end.

Definition present (v : value) : Prop := nullish v = false.

(** The three copies of the error classifier. *)
Definition classifiers : list (value -> M Response) :=
  [Movies.handleError; Anime.handleError; TvShows.handleError].

(** The time window a trending request asks for: the bound path parameter,
    or week when the path has none. *)
Definition asks_window (request : Request) (w : string) : Prop :=
  param request "time_window" = VStr w \/
  (param request "time_window" = VUndefined /\ w = "week").

(** The image field computed from a raw path by the routes that test the
    path first. *)
Definition prefixed (base : string) (raw : value) : value :=
  if truthy raw then VStr (base ++ to_string raw) else VNull.

(** An item with its two image fields redefined. *)
Definition with_images (base : string) (item : value) : value :=
  VObj (put "poster_path" (prefixed base (field item "poster_path"))
          (put "backdrop_path" (prefixed base (field item "backdrop_path"))
             (own_props item))).



(** A list of named entries (genres, themes, ...) without null entries. *)
Definition name_list (v : value) : Prop :=
  exists l, v = VArr l /\ Forall present l.

(** An upstream anime item the arrow function can map: it has images with
    a jpg part, a trailer, and its four genre-like fields are lists. *)
Definition anime_source (x : value) : Prop :=
  present x /\
  present (field x "images") /\
  present (field (field x "images") "jpg") /\
  present (field x "trailer") /\
  name_list (field x "genres") /\
  name_list (field x "themes") /\
  name_list (field x "demographics") /\
  name_list (field x "explicit_genres").

Definition names (v : value) : value :=
  match v with
  | VArr l => VArr (List.map (fun entry => field entry "name") l)
  | _ => VUndefined
  end.

(** What the anime arrow function returns on such an item. *)
Definition anime_view (x : value) : value :=
  let jpg := field (field x "images") "jpg" in
  let trailer := field x "trailer" in
  let trailer_images := field trailer "images" in
  VObj [
    ("mal_id", field x "mal_id");
    ("mal_url", field x "url");
    ("images",
     VArr [field jpg "image_url";
           field jpg "large_image_url";
           or (if nullish trailer_images then VUndefined
               else field trailer_images "maximum_image_url") VNull]);
    ("trailer",
     VObj [("yt_id", field trailer "youtube_id");
           ("yt_url", field trailer "url");
           ("embed_url", field trailer "embed_url")]);
    ("titles",
     VObj [("default_title", field x "title");
           ("japanese_title", field x "title_japanese");
           ("english_title", field x "title_english")]);
    ("episodes", field x "episodes");
    ("rating", field x "rating");
    ("type", field x "type");
    ("source", field x "source");
    ("status", field x "status");
    ("score", field x "score");
    ("rank", field x "rank");
    ("popularity", field x "popularity");
    ("synopsis", field x "synopsis");
    ("backgroud", field x "backgroud");
    ("season", field x "season");
    ("year", field x "year");
    ("genres", names (field x "genres"));
    ("themes", names (field x "themes"));
    ("demographics", names (field x "demographics"));
    ("explicit_genres", names (field x "explicit_genres"))].

(** The scalar fields the anime routes are meant to carry over. *)
Definition anime_scalars : list string :=
  ["episodes"; "rating"; "type"; "source"; "status"; "score"; "rank";
   "popularity"; "synopsis"; "background"; "season"; "year"].

(** The query string of the two search routes. *)
Definition search_query (request : Request) : string :=
  search_params
    [("include_adult", VStr "false"); ("language", VStr "en-US");
     ("page", int 1);
     ("query", or (query_param request "query") (VStr ""))].

(** An image entry trimmed to its four fields. *)
Definition trimmed_image (base : string) (x : value) : value :=
  VObj [("aspect_ratio", field x "aspect_ratio");
        ("height", field x "height");
        ("width", field x "width");
        ("file_path", VStr (base ++ to_string (field x "file_path")))].

(** The list an images route builds from [data.backdrops] or
    [data.posters]. *)
Definition image_list (base : string) (v : value) : list value :=
  match v with
  | VArr l => List.map (trimmed_image base) (firstn 30 l)
  | _ => []
  end.

(** What an images route accepts under [backdrops] and [posters]: nothing,
    or a list whose first 30 entries are not null. *)
Definition image_source (v : value) : Prop :=
  nullish v = true \/ exists l, v = VArr l /\ Forall present (firstn 30 l).


(** An item holding exactly the four image fields, in this order. *)
Definition four_fields (y : value) : Prop :=
  exists a h w f,
    y = VObj [("aspect_ratio", a); ("height", h); ("width", w); ("file_path", f)].

(** The answer of an images route to the upstream body [data]: the two
    lists are made from the upstream ones, entry by entry from their
    first 30 entries ([image_list], with [base] put before each
    [file_path]). *)
Definition answers_images (route : M Response) (up : Upstream) (url : string)
    (base : string) (data : value) : Prop :=
  exists bs ps,
    run route up =
      ([url], Ok {| status := int 200;
                    body := VObj [("backdrops", VArr bs); ("posters", VArr ps)] |}) /\
    bs = image_list base (field data "backdrops") /\
    ps = image_list base (field data "posters") /\
    (List.length bs <= 30)%nat /\ (List.length ps <= 30)%nat /\
    Forall four_fields bs /\ Forall four_fields ps /\
    (nullish (field data "backdrops") = true -> bs = []) /\
    (nullish (field data "posters") = true -> ps = []).

(** A picture entry the anime-by-id route can reshape. *)
Definition picture_source (p : value) : Prop :=
  present p /\ present (field p "jpg") /\ present (field p "webp").

(** The three URLs of a picture in one format. *)
Definition picture_urls (format : string) (p : value) : value :=
  VObj [("image_url", field (field p format) "image_url");
        ("small_image_url", field (field p format) "small_image_url");
        ("large_image_url", field (field p format) "large_image_url")].

(** The page a popular-TV request asks for: the raw [page] query value, or
    the number 1 when the query has none. *)
Definition requested_page (request : Request) (page : value) : Prop :=
  (query_param request "page" = page /\ page <> VUndefined) \/
  (query_param request "page" = VUndefined /\ page = int 1).


(** The body of the page-out-of-range reply. *)
Definition out_of_range (page total_pages total_results : value) : value :=
  VObj [("pagination",
         VObj [("current_page", page);
               ("last_visible_page", total_pages);
               ("has_next_page", VBool false);
               ("items",
                VObj [("total_pages", total_pages);
                      ("total_results", total_results)])]);
        ("results", VArr []);
        ("message", VStr "No results found for the requested page.")].

(** The body of a page of popular TV shows. *)
Definition page_of_shows (data : value) (shows : list value) : value :=
  VObj [("pagination",
         VObj [("current_page", field data "page");
               ("total_pages", field data "total_pages");
               ("total_results", field data "total_results")]);
        ("popular_tv_shows", VArr shows)].


(** A status the numbers of the model hold exactly: none at all, or an
    integer below 2^53. *)
Definition whole (s : value) : Prop :=
  s = VUndefined \/ exists k, s = int k /\ Z.abs k < 2 ^ 53.

(** A failure that carries a response carries it with the status code of
    an HTTP reply, a whole number from 100 to 999. *)
Definition valid_failure (err : value) : Prop :=
  truthy (field err "response") = true ->
  exists c, field (field err "response") "status" = int c /\ 100 <= c <= 999.

(** What the query parser of Express makes of a parameter: a string, a
    list of such values, or an object of such values, never with a key of
    its own called toString. *)
Fixpoint parsed (v : value) : bool :=
  match v with
  | VStr _ => true
  | VArr l => forallb parsed l
  | VObj props =>
      (fix all (props : list (string * value)) : bool :=
         match props with
         | [] => true
         | (k, x) :: r => negb (String.eqb k "toString") && parsed x && all r
         end) props
  | _ => false
  end.

(** A request as Express delivers it. *)
Definition parsed_request (request : Request) : Prop :=
  parsed (VObj (query request)) = true.

(** A raw value that is absent, null, a boolean or a string. *)
Definition simple (v : value) : bool :=
  match v with
  | VUndefined | VNull | VBool _ | VStr _ => true
  | _ => false
  end.

(** An upstream item with its two raw image paths absent, null, booleans
    or strings. *)
Definition pictured (x : value) : Prop :=
  present x /\
  simple (field x "backdrop_path") = true /\
  simple (field x "poster_path") = true.

(** The entries of an images list, as far as the route reads them, have
    a [file_path] that is absent, null, a boolean or a string. *)
Definition filed (v : value) : Prop :=
  forall l, v = VArr l ->
    Forall (fun x => simple (field x "file_path") = true) (firstn 30 l).

(** ** Fixtures *)

Definition example_urls : Config :=
  {| tmdb := "https://api.themoviedb.org/3";
     jikan := "https://api.jikan.moe/v4";
     image := "https://image.tmdb.org/t/p/original" |}.

Definition no_upstream : Upstream :=
  fun _ => Throw (VObj [("request", VObj []); ("message", VStr "connect ECONNREFUSED")]).

Definition upstream_404 : value :=
  VObj [("message", VStr "Request failed with status code 404");
        ("response",
         VObj [("status", int 404);
               ("data", VObj [("status_message", VStr "The resource you requested could not be found.")])]);
        ("request", VObj [])].

Definition two_items : list value :=
  [VObj [("id", int 550); ("title", VStr "Fight Club");
         ("backdrop_path", VNull);
         ("poster_path", VStr "/a.jpg");
         ("popularity", VNum (Fin 615 (-1)))];
   VObj [("id", int 13); ("title", VStr "Forrest Gump");
         ("backdrop_path", VStr "/b.jpg");
         ("poster_path", VStr "/c.jpg")]].

Definition two_results : value :=
  VObj [("page", int 1); ("results", VArr two_items);
        ("total_pages", int 3); ("total_results", int 42)].

Definition two_trending : Upstream := fun _ => Ok two_results.

Definition one_anime : value :=
  VObj [("mal_id", int 1);
        ("url", VStr "https://myanimelist.net/anime/1/Cowboy_Bebop");
        ("images",
         VObj [("jpg", VObj [("image_url", VStr "https://cdn.myanimelist.net/images/anime/4/19644.jpg");
                             ("large_image_url", VStr "https://cdn.myanimelist.net/images/anime/4/19644l.jpg")])]);
        ("trailer", VObj [("youtube_id", VNull); ("url", VNull); ("embed_url", VNull)]);
        ("title", VStr "Cowboy Bebop");
        ("title_japanese", VNull);
        ("title_english", VStr "Cowboy Bebop");
        ("episodes", int 26);
        ("rating", VStr "R - 17+ (violence & profanity)");
        ("type", VStr "TV");
        ("source", VStr "Original");
        ("status", VStr "Finished Airing");
        ("score", VNum (Fin 875 (-2)));
        ("rank", int 46);
        ("popularity", int 43);
        ("synopsis", VStr "Crime is timeless.");
        ("background", VStr "Won the Seiun Award in 2000.");
        ("season", VStr "spring");
        ("year", int 1998);
        ("genres", VArr [VObj [("mal_id", int 1); ("name", VStr "Action")];
                         VObj [("mal_id", int 24); ("name", VStr "Sci-Fi")]]);
        ("themes", VArr [VObj [("mal_id", int 29); ("name", VStr "Space")]]);
        ("demographics", VArr []);
        ("explicit_genres", VArr [])].

Definition one_anime_upstream : Upstream :=
  fun _ => Ok (VObj [("data", VArr [one_anime])]).

Definition forty_backdrops : list value :=
  List.map (fun i => VObj [("aspect_ratio", VNum (Fin 1778 (-3)));
                           ("height", int 1080); ("width", int 1920);
                           ("iso_639_1", VNull);
                           ("file_path", VStr ("/" ++ index_key i ++ ".jpg"))])
           (seq 0 40).

Definition images_body : value :=
  VObj [("id", int 550); ("backdrops", VArr forty_backdrops); ("logos", VArr [])].

Definition images_upstream : Upstream := fun _ => Ok images_body.


Definition bebop_detail : list (string * value) :=
  [("data", one_anime)].

Definition bebop_pictures : list value :=
  [VObj [("jpg", VObj [("image_url", VStr "a.jpg"); ("small_image_url", VStr "at.jpg");
                       ("large_image_url", VStr "al.jpg")]);
         ("webp", VObj [("image_url", VStr "a.webp"); ("small_image_url", VStr "at.webp");
                        ("large_image_url", VStr "al.webp")])];
   VObj [("jpg", VObj [("image_url", VStr "b.jpg"); ("small_image_url", VStr "bt.jpg");
                       ("large_image_url", VStr "bl.jpg")]);
         ("webp", VObj [("image_url", VStr "b.webp"); ("small_image_url", VStr "bt.webp");
                        ("large_image_url", VStr "bl.webp")])]].

Definition bebop_videos : value :=
  VObj [("data", VObj [("promo", VArr []); ("episodes", VArr [])])].

Definition bebop_upstream : Upstream :=
  fun url =>
    if String.eqb url "https://api.jikan.moe/v4/anime/1" then Ok (VObj bebop_detail)
    else if String.eqb url "https://api.jikan.moe/v4/anime/1/pictures"
    then Ok (VObj [("data", VArr bebop_pictures)])
    else if String.eqb url "https://api.jikan.moe/v4/anime/1/videos" then Ok bebop_videos
    else Throw upstream_404.

Definition request_with (ps : list (string * string)) (qs : list (string * value)) : Request :=
  {| params := ps; query := qs |}.

(** * Vocabulary of the further statements *)

(** The only exception an expression of the routes raises by itself is a
    [TypeError]. *)
Definition raises_type_error {A : Type} (r : result A) : Prop :=
  match r with
  | Ok _ => True
  | Throw e => exists msg, e = TypeError msg
  end.

(** The reply of the error classifier to a failure object. *)
Definition classified (err : value) : Response :=
  if truthy (field err "response") then
    {| status := field (field err "response") "status";
       body := VStr "Error fetching data from API." |}
  else if truthy (field err "request") then
    {| status := int 500; body := VStr "No response received from API." |}
  else
    {| status := int 500; body := VStr "Internal Server Error." |}.

Definition internal_error : Response :=
  {| status := int 500; body := VStr "Internal Server Error." |}.

(** The routes that make one upstream call, each with the URL it
    requests.  A trending route is one of them when its time window is
    valid. *)
Inductive single_call (URLs : Config) (request : Request)
  : M Response -> string -> Prop :=
| call_trending_movies w :
    asks_window request w -> w = "week" \/ w = "day" ->
    single_call URLs request (Movies.trending_movies URLs request)
      (tmdb URLs ++ "/trending/movie/" ++ w ++ "?language=en-US")
| call_popular_movies :
    single_call URLs request (Movies.popular_movies URLs request)
      (tmdb URLs ++ "/movie/popular?language=en-US&page=1")
| call_upcoming_movies :
    single_call URLs request (Movies.upcoming_movies URLs request)
      (tmdb URLs ++ "/movie/upcoming?language=en-US&page=1")
| call_search_movies :
    single_call URLs request (Movies.search_movies URLs request)
      (tmdb URLs ++ "/search/movie?" ++ search_query request)
| call_images_movie :
    single_call URLs request (Movies.images_movie URLs request)
      (tmdb URLs ++ "/movie/" ++ to_string (param request "id") ++ "/images")
| call_trending_anime :
    single_call URLs request (Anime.trending_anime URLs request)
      (jikan URLs ++ "/seasons/now")
| call_popular_anime :
    single_call URLs request (Anime.popular_anime URLs request)
      (jikan URLs ++ "/top/anime")
| call_upcoming_anime :
    single_call URLs request (Anime.upcoming_anime URLs request)
      (jikan URLs ++ "/seasons/upcoming")
| call_search_anime :
    single_call URLs request (Anime.search_anime URLs request)
      (if String.eqb (search_params (query request)) ""
       then jikan URLs ++ "/anime"
       else jikan URLs ++ "/anime?" ++ search_params (query request))
| call_trending_tv w :
    asks_window request w -> w = "week" \/ w = "day" ->
    single_call URLs request (TvShows.trending_tv URLs request)
      (tmdb URLs ++ "/trending/tv/" ++ w ++ "?language=en-US")
| call_popular_tv page :
    requested_page request page ->
    single_call URLs request (TvShows.popular_tv URLs request)
      (tmdb URLs ++ "/tv/top_rated?language=en-US&page=" ++ to_string page)
| call_search_tv :
    single_call URLs request (TvShows.search_tv URLs request)
      (tmdb URLs ++ "/search/tv?" ++ search_query request)
| call_images_tv :
    single_call URLs request (TvShows.images_tv URLs request)
      (tmdb URLs ++ "/tv/" ++ to_string (param request "id") ++ "/images").

(** All the routes of the three routers. *)
Definition all_routes (URLs : Config) (request : Request) : list (M Response) :=
  [Movies.trending_movies URLs request; Movies.popular_movies URLs request;
   Movies.upcoming_movies URLs request; Movies.search_movies URLs request;
   Movies.images_movie URLs request;
   Anime.trending_anime URLs request; Anime.popular_anime URLs request;
   Anime.upcoming_anime URLs request; Anime.search_anime_id URLs request;
   Anime.search_anime URLs request;
   TvShows.trending_tv URLs request; TvShows.popular_tv URLs request;
   TvShows.search_tv URLs request; TvShows.images_tv URLs request].

(** The upstream rejects as axios does: with failure objects (never null
    or undefined) whose response, when there is one, carries a status
    code between 100 and 999. *)
Definition rejects_as_axios (up : Upstream) : Prop :=
  forall url e, up url = Throw e -> present e /\ valid_failure e.

(** A handler computation, run against [up], ends with a value that
    satisfies [post] or throws a [TypeError] or a failure the upstream
    rejected a call with. *)
Definition escapes {A : Type} (up : Upstream) (c : M A) (post : A -> Prop)
  : Prop :=
  forall calls,
    match snd (c up calls) with
    | Ok a => post a
    | Throw e => (exists msg, e = TypeError msg) \/ (exists url, up url = Throw e)
    end.

Definition is_number (v : value) : bool :=
  match v with VNum _ => true | _ => false end.

(** Where a response comes from: the route's own success or validation
    replies, the classifier's reply to an upstream failure, its reply to
    an exception of the route itself, or an upstream body that is a
    number and was sent as the status code. *)
Definition accounted (up : Upstream) (r : Response) : Prop :=
  In (status r) [int 200; int 400; int 404] \/
  r = internal_error \/
  (exists url e, up url = Throw e /\ r = classified e) \/
  (exists url n c, up url = Ok (VNum n) /\ 100 <= c <= 999 /\
                   r = {| status := int c; body := StatusText (VNum n) |}).

(** A handler computation that makes no upstream call. *)
Definition quiet {A : Type} (c : M A) : Prop :=
  forall up calls, fst (c up calls) = calls.


(** The image field computed by the routes that prefix without a test. *)
Definition glued (base : string) (raw : value) : value :=
  VStr (base ++ to_string raw).

(** What the popular-movies arrow function returns on an item. *)
Definition popular_movie_view (base : string) (x : value) : value :=
  VObj [("id", field x "id");
        ("original_language", field x "original_language");
        ("original_title", field x "original_title");
        ("title", field x "title");
        ("overview", field x "overview");
        ("backdrop_path", glued base (field x "backdrop_path"));
        ("poster_path", glued base (field x "poster_path"));
        ("release_date", field x "release_date");
        ("vote_average", field x "vote_average")].

(** The upcoming and search arrow functions put overview before title. *)
Definition listed_movie_view (base : string) (x : value) : value :=
  VObj [("id", field x "id");
        ("original_language", field x "original_language");
        ("original_title", field x "original_title");
        ("overview", field x "overview");
        ("title", field x "title");
        ("backdrop_path", glued base (field x "backdrop_path"));
        ("poster_path", glued base (field x "poster_path"));
        ("release_date", field x "release_date");
        ("vote_average", field x "vote_average")].

Definition tv_view (base : string) (x : value) : value :=
  VObj [("id", field x "id");
        ("original_language", field x "original_language");
        ("original_name", field x "original_name");
        ("overview", field x "overview");
        ("name", field x "name");
        ("backdrop_path", glued base (field x "backdrop_path"));
        ("poster_path", glued base (field x "poster_path"));
        ("first_air_date", field x "first_air_date");
        ("vote_average", field x "vote_average")].

(** A capped route answers with [view] of each of the first 20 items, in
    the upstream order, when those items satisfy [source]. *)
Definition answers_views (route : M Response) (url key : string)
    (source : value -> Prop) (view : value -> value) : Prop :=
  forall up data l,
    up url = Ok data ->
    get data key = Ok (VArr l) ->
    Forall source (firstn 20 l) ->
    run route up =
      ([url], Ok {| status := int 200;
                    body := VArr (List.map view (firstn 20 l)) |}).

Definition pictures_down : Upstream :=
  fun url =>
    if String.eqb url "https://api.jikan.moe/v4/anime/1" then Ok (VObj bebop_detail)
    else Throw upstream_404.



(** The characters a form-encoded text is made of. *)
Definition url_safe (c : ascii) : bool :=
  let n := N_of_ascii c in
  ((48 <=? n) && (n <=? 57) || (65 <=? n) && (n <=? 90) ||
   (97 <=? n) && (n <=? 122) ||
   (n =? 42) || (n =? 45) || (n =? 46) || (n =? 95) ||
   (n =? 43) || (n =? 37))%N.

(** Reading a form-encoded text back: [+] is a space and [%XY] the byte
    with hexadecimal code XY. *)
Fixpoint form_decode (s : string) : string :=
  match s with
  | EmptyString => EmptyString
  | String c s1 =>
      if Ascii.eqb c "+" then String " " (form_decode s1)
      else if Ascii.eqb c "%" then
        match s1 with
        | String a (String b r) =>
            match digit_val 16 a, digit_val 16 b with
            | Some x, Some y =>
                String (ascii_of_N (Z.to_N (x * 16 + y))) (form_decode r)
            | _, _ => String c (form_decode s1)
            end
        | _ => String c (form_decode s1)
        end
      else String c (form_decode s1)
  end.

(** The text a search request asks for: the [query] parameter as a
    string, empty when the request has none. *)
Definition search_text (request : Request) : string :=
  to_string (or (query_param request "query") (VStr "")).

(** The URL of the anime search: the bare endpoint when the request has
    no query parameter at all. *)
Definition anime_search_url (URLs : Config) (request : Request) : string :=
  match query request with
  | [] => jikan URLs ++ "/anime"
  | _ :: _ => jikan URLs ++ "/anime?" ++ search_params (query request)
  end.

(** A character of one byte that is no white space. *)
Definition solid (c : ascii) : bool :=
  (N_of_ascii c <? 128)%N && negb (is_space c).

Definition echo : Upstream := fun url => Ok (VObj [("url", VStr url)]).

Definition text_backdrops : value :=
  VObj [("id", int 550); ("backdrops", VStr "none"); ("posters", VArr [])].

Example number_to_string_ex :
  List.map number_to_string
    [Fin 1 0; Fin 1250 (-2); Fin (-5) (-7); Fin 1 21; Fin 12 (-1); Fin 1778 (-3); Fin 100 0]
  = ["1"; "12.5"; "-5e-7"; "1e+21"; "1.2"; "1.778"; "100"].
Proof. reflexivity. Qed.

Example string_to_number_ex :
  List.map string_to_number
    [""; " 12 "; "0x1F"; "1e3"; "-.5"; "abc"; "1."; "."; "12px"; "-Infinity"; "1e"]
  = [Fin 0 0; Fin 12 0; Fin 31 0; Fin 1 3; Fin (-5) (-1); NaN; Fin 1 0; NaN; NaN; Inf true; NaN].
Proof. reflexivity. Qed.

Example trim_ex :
  let nbsp := String (ascii_of_nat 194) (String (ascii_of_nat 160) "") in
  let bom := String (ascii_of_nat 239)
               (String (ascii_of_nat 187) (String (ascii_of_nat 191) "")) in
  let zwsp := String (ascii_of_nat 226)
                (String (ascii_of_nat 128) (String (ascii_of_nat 139) "")) in
  List.map string_to_number [nbsp ++ "5"; "5" ++ nbsp; bom ++ " 7 "; zwsp ++ "5"; nbsp]
  = [Fin 5 0; Fin 5 0; Fin 7 0; NaN; Fin 0 0].
Proof. reflexivity. Qed.

Example status_code_ex :
  List.map status_code
    [int 200; int 99; int 1000; VUndefined; VStr "404"; VNum (Fin 4045 (-1));
     VNum NaN; VNull]
  = [Some 200; None; None; None; Some 404; Some 404; None; None].
Proof. reflexivity. Qed.

Example send_ex :
  List.map (fun v => snd (send v no_upstream []))
    [VArr []; VStr "ok"; int 404; int 5]
  = [Ok {| status := int 200; body := VArr [] |};
     Ok {| status := int 200; body := VStr "ok" |};
     Ok {| status := int 404; body := StatusText (int 404) |};
     Throw (RangeError (int 5))].
Proof. reflexivity. Qed.

Example gt_ex :
  List.map (fun p => gt (fst p) (snd p))
    [(VStr "10", int 5); (VStr "10", VStr "5"); (VStr "abc", int 5);
     (int 1, int 0); (VArr [VStr "7"], int 5); (VStr "1.5", int 1);
     (VStr "5", VUndefined); (VStr "1e3", int 999)]
  = [true; false; false; true; true; true; false; true].
Proof. reflexivity. Qed.

Example search_params_ex :
  search_params [("include_adult", VStr "false"); ("language", VStr "en-US");
                 ("page", int 1); ("query", VStr "one piece!")]
  = "include_adult=false&language=en-US&page=1&query=one+piece%21".
Proof. reflexivity. Qed.


(** * Handlers in general *)

Lemma get_field v k : present v -> get v k = Ok (field v k).
Proof.
  unfold present, field.
  destruct v; simpl; intros; try discriminate; reflexivity.
Qed.

Lemma present_all l :
  forallb (fun x => negb (nullish x)) l = true -> Forall present l.
Proof.
  rewrite forallb_forall, Forall_forall. intros H x Hx.
  apply negb_true_iff, H, Hx.
Qed.


Lemma mapM_map f g l :
  Forall (fun x => f x = Ok (g x)) l -> mapM f l = Ok (List.map g l).
Proof.
  induction 1 as [|x r Hx _ IH]; simpl; [reflexivity|].
  rewrite Hx, IH. reflexivity.
Qed.

Lemma status_code_int c : 100 <= c <= 999 -> status_code (int c) = Some c.
Proof.
  intros Hc. unfold status_code, int, to_number, to_primitive, to_int32.
  change (0 <=? 0) with true. cbv iota.
  replace ((c * 10 ^ 0 + 2 ^ 31) mod 2 ^ 32 - 2 ^ 31) with c.
  - destruct (Z.leb_spec 100 c); [|lia].
    destruct (Z.leb_spec c 999); [reflexivity|lia].
  - rewrite Z.mod_small; lia.
Qed.

Lemma status_code_range s c : status_code s = Some c -> 100 <= c <= 999.
Proof.
  unfold status_code.
  destruct (Z.leb_spec 100 (to_int32 (to_number s)));
    destruct (Z.leb_spec (to_int32 (to_number s)) 999);
    simpl; try discriminate.
  intros E. injection E as <-. lia.
Qed.

Lemma status_code_small c : - 2 ^ 31 <= c < 100 -> status_code (int c) = None.
Proof.
  intros Hc. unfold status_code, int, to_number, to_primitive, to_int32.
  change (0 <=? 0) with true. cbv iota.
  replace ((c * 10 ^ 0 + 2 ^ 31) mod 2 ^ 32 - 2 ^ 31) with c.
  - destruct (Z.leb_spec 100 c); [lia|reflexivity].
  - rewrite Z.mod_small; lia.
Qed.

Lemma send_array l up calls :
  send (VArr l) up calls = (calls, Ok {| status := int 200; body := VArr l |}).
Proof. reflexivity. Qed.

Lemma send_object props up calls :
  send (VObj props) up calls = (calls, Ok {| status := int 200; body := VObj props |}).
Proof. reflexivity. Qed.

Section Classifier.

Variable h : value -> M Response.
Hypothesis h_classifier : In h classifiers.

Lemma classifier_unfold : h = Movies.handleError.
Proof.
  destruct h_classifier as [<-|[<-|[<-|[]]]]; reflexivity.
Qed.

Lemma classifier_present err up calls :
  present err ->
  h err up calls =
    if truthy (field err "response") then
      write (field (field err "response") "status")
            (VStr "Error fetching data from API.") up calls
    else
      (calls,
       Ok (if truthy (field err "request") then
             {| status := int 500; body := VStr "No response received from API." |}
           else
             {| status := int 500; body := VStr "Internal Server Error." |})).
Proof.
  intros Herr. rewrite classifier_unfold.
  unfold Movies.handleError, mbind, lift.
  rewrite (get_field err "response" Herr).
  destruct (truthy (field err "response")) eqn:Hr.
  - rewrite get_field; [reflexivity|].
    unfold present. destruct (field err "response"); simpl in *; congruence.
  - rewrite (get_field err "request" Herr).
    destruct (truthy (field err "request")); reflexivity.
Qed.

Lemma write_calls s b up calls : fst (write s b up calls) = calls.
Proof. unfold write. destruct (status_code s); reflexivity. Qed.

Lemma write_body s b up calls calls' r :
  write s b up calls = (calls', Ok r) -> body r = b.
Proof.
  unfold write. destruct (status_code s); [|discriminate].
  intros H. injection H as _ <-. reflexivity.
Qed.

(** Whatever was thrown, the classifier makes no upstream call. *)
Lemma classifier_calls err up calls : fst (h err up calls) = calls.
Proof.
  destruct (nullish err) eqn:Hn.
  - rewrite classifier_unfold. destruct err; try discriminate; reflexivity.
  - rewrite classifier_present by exact Hn.
    destruct (truthy _); [apply write_calls|reflexivity].
Qed.


Lemma send_calls v up calls : fst (send v up calls) = calls.
Proof. unfold send, send_with. destruct v; apply write_calls. Qed.

(** The shape shared by the routes that make one upstream call. *)
Lemma run_fetch url (F : value -> result value) up :
  run (try_catch (r <- axios_get url ;; out <- lift (F r) ;; send out) h) up =
  match (let* d := up url in F (VObj [("data", d)])) with
  | Ok out =>
      match send out up [url] with
      | (calls, Ok r) => (calls, Ok r)
      | (calls, Throw e) => h e up calls
      end
  | Throw e => h e up [url]
  end.
Proof.
  unfold run, try_catch, mbind, axios_get, lift. simpl.
  destruct (up url) as [d|e]; simpl; [|reflexivity].
  destruct (F _); reflexivity.
Qed.

Lemma run_fetch_calls url F up :
  fst (run (try_catch (r <- axios_get url ;; out <- lift (F r) ;; send out) h) up)
  = [url].
Proof.
  rewrite run_fetch. destruct (let* d := up url in _) as [out|e].
  - pose proof (send_calls out up [url]) as Hs.
    destruct (send out up [url]) as [calls [r|e]]; simpl in Hs; subst calls;
      [reflexivity|apply classifier_calls].
  - apply classifier_calls.
Qed.

End Classifier.

(** * The error classifier *)

(** C3.  Each copy of [handleError], given a failure object, takes exactly
    one of three branches, tried in this order.  The failure carries a
    response, whose status is an integer or is missing: the reply has
    that response's status code (what Node writes in the head: the
    integer wrapped to 32 bits, which must lie from 100 to 999) and the
    text "Error fetching data from API."; with a status that is no such
    code, 99 or none at all, the head cannot be written and the
    classifier throws instead of replying.
    Else the failure carries a request: the reply is 500 with
    "No response received from API.".  Else the reply is 500 with
    "Internal Server Error.".  No upstream call is made, and the body of
    a reply is one of the three literals whatever the failure holds;
    of the failure only the status code is passed on. *)
Theorem handleError_three_branches :
  forall h, In h classifiers ->
  forall err up calls, present err ->
    (truthy (field err "response") = true ->
     whole (field (field err "response") "status") ->
     (forall c, status_code (field (field err "response") "status") = Some c ->
        h err up calls =
          (calls, Ok {| status := int c;
                        body := VStr "Error fetching data from API." |})) /\
     (status_code (field (field err "response") "status") = None ->
        exists e, h err up calls = (calls, Throw e)))
    /\
    (truthy (field err "response") = false ->
     truthy (field err "request") = true ->
     h err up calls =
       (calls, Ok {| status := int 500;
                     body := VStr "No response received from API." |}))
    /\
    (truthy (field err "response") = false ->
     truthy (field err "request") = false ->
     h err up calls =
       (calls, Ok {| status := int 500; body := VStr "Internal Server Error." |}))
    /\
    (forall calls' r, h err up calls = (calls', Ok r) ->
       calls' = calls /\
       In (body r) [Sent (VStr "Error fetching data from API.");
                    Sent (VStr "No response received from API.");
                    Sent (VStr "Internal Server Error.")]).
Proof.
  intros h Hh err up calls Herr.
  pose proof (classifier_present h Hh err up calls Herr) as E.
  split; [|split; [|split]].
  - intros Hr _. rewrite Hr in E. split.
    + intros c Hc. rewrite E. unfold write. rewrite Hc. reflexivity.
    + intros Hno. rewrite E. unfold write. rewrite Hno. eexists. reflexivity.
  - intros Hr Hq. rewrite Hr, Hq in E. exact E.
  - intros Hr Hq. rewrite Hr, Hq in E. exact E.
  - intros calls' r H. split.
    + pose proof (classifier_calls h Hh err up calls) as Hc.
      rewrite H in Hc. exact Hc.
    + rewrite E in H.
      destruct (truthy (field err "response")).
      * apply write_body in H. rewrite H. simpl. tauto.
      * injection H as _ <-.
        destruct (truthy (field err "request")); simpl; tauto.
Qed.

Lemma handleError_three_branches_witness :
  In TvShows.handleError classifiers /\ present upstream_404 /\
  whole (field (field upstream_404 "response") "status") /\
  TvShows.handleError upstream_404 no_upstream [] =
    ([], Ok {| status := int 404; body := VStr "Error fetching data from API." |}).
Proof.
  assert (Hw : whole (field (field upstream_404 "response") "status")).
  { right. exists 404. split; [reflexivity|reflexivity]. }
  split; [right; right; left; reflexivity|].
  split; [reflexivity|]. split; [exact Hw|].
  exact (proj1 (proj1 (handleError_three_branches TvShows.handleError
                         (or_intror (or_intror (or_introl eq_refl)))
                         upstream_404 no_upstream [] eq_refl) eq_refl Hw)
               404 eq_refl).
Defined.

(** * Trending movies and TV shows *)

Lemma assoc_put_same k v l : assoc k (put k v l) = Some v.
Proof.
  induction l as [|[k' v'] r IH]; simpl.
  - rewrite String.eqb_refl. reflexivity.
  - destruct (String.eqb k' k) eqn:E; simpl; rewrite ?E, ?String.eqb_refl; auto.
Qed.

Lemma assoc_put_other k k' v l : k <> k' -> assoc k (put k' v l) = assoc k l.
Proof.
  intros Hk. induction l as [|[k1 v1] r IH]; simpl.
  - destruct (String.eqb k' k) eqn:E; [|reflexivity].
    apply String.eqb_eq in E. congruence.
  - destruct (String.eqb k1 k') eqn:E1; simpl.
    + apply String.eqb_eq in E1. subst k1.
      destruct (String.eqb k' k) eqn:E; [|reflexivity].
      apply String.eqb_eq in E. congruence.
    + destruct (String.eqb k1 k); auto.
Qed.


(** The arrow function the trending and popular-TV routes map over the
    upstream list, on an item that is neither null nor undefined. *)
Lemma spread_item base x :
  present x ->
  object_from (own_props x) [
    ("backdrop_path",
     let* p := get x "backdrop_path" in
     if truthy p then
       let* p := get x "backdrop_path" in Ok (concat base p)
     else Ok VNull);
    ("poster_path",
     let* p := get x "poster_path" in
     if truthy p then
       let* p := get x "poster_path" in Ok (concat base p)
     else Ok VNull)]
  = Ok (with_images base x).
Proof.
  intros Hx. unfold object_from, with_images, prefixed, concat.
  rewrite !(get_field x _ Hx). simpl.
  destruct (truthy (field x "backdrop_path")); simpl;
    destruct (truthy (field x "poster_path")); reflexivity.
Qed.

Lemma includes_window w :
  includes ["week"; "day"] (VStr w) = true <-> (w = "week" \/ w = "day").
Proof.
  simpl. rewrite !orb_true_iff, !String.eqb_eq. intuition discriminate.
Qed.

Lemma asks_window_or request w :
  asks_window request w -> w <> "" ->
  or (param request "time_window") (VStr "week") = VStr w.
Proof.
  intros [H|[H ->]] Hw; rewrite H; unfold or; simpl; [|reflexivity].
  destruct (String.eqb w "") eqn:E; [|reflexivity].
  apply String.eqb_eq in E. contradiction.
Qed.

Ltac valid_window H Hv :=
  rewrite (asks_window_or _ _ H) by (destruct Hv; subst; discriminate);
  rewrite (proj2 (includes_window _) Hv); cbn [negb to_string].

Ltac classifier := unfold classifiers; simpl; tauto.






(** The worked example of the specification: two trending movies, the
    first without a backdrop. *)
Example trending_movies_day :
  run (Movies.trending_movies example_urls (request_with [("time_window", "day")] []))
      two_trending =
    (["https://api.themoviedb.org/3/trending/movie/day?language=en-US"],
     Ok {| status := int 200;
           body :=
             VArr [VObj [("id", int 550); ("title", VStr "Fight Club");
                         ("backdrop_path", VNull);
                         ("poster_path", VStr "https://image.tmdb.org/t/p/original/a.jpg");
                         ("popularity", VNum (Fin 615 (-1)))];
                   VObj [("id", int 13); ("title", VStr "Forrest Gump");
                         ("backdrop_path", VStr "https://image.tmdb.org/t/p/original/b.jpg");
                         ("poster_path", VStr "https://image.tmdb.org/t/p/original/c.jpg")]] |}).
Proof. reflexivity. Qed.

Lemma invalid_window_or w :
  w <> "" -> or (VStr w) (VStr "week") = VStr w.
Proof.
  intros Hw. unfold or. simpl.
  destruct (String.eqb w "") eqn:E; [|reflexivity].
  apply String.eqb_eq in E. contradiction.
Qed.

Lemma excludes_window w :
  w <> "week" -> w <> "day" -> includes ["week"; "day"] (VStr w) = false.
Proof.
  intros H1 H2. simpl.
  apply String.eqb_neq in H1, H2. rewrite H1, H2. reflexivity.
Qed.

(** C5.  On the trending-movies and trending-TV routes: without a
    [time_window] path parameter the route behaves as with week, its one
    upstream call going to the week endpoint; with week or day exactly one
    upstream call is made, to the endpoint of that value, whatever the
    upstream then answers; with any other bound value (a bound value is
    not empty) no upstream call is made and the reply is 400 with a body
    naming the value and the allowed values week, day. *)
Theorem trending_time_window :
  forall URLs request up,
    (param request "time_window" = VUndefined ->
       fst (run (Movies.trending_movies URLs request) up) =
         [tmdb URLs ++ "/trending/movie/week?language=en-US"] /\
       fst (run (TvShows.trending_tv URLs request) up) =
         [tmdb URLs ++ "/trending/tv/week?language=en-US"] /\
       forall week, param week "time_window" = VStr "week" ->
         run (Movies.trending_movies URLs request) up =
           run (Movies.trending_movies URLs week) up /\
         run (TvShows.trending_tv URLs request) up =
           run (TvShows.trending_tv URLs week) up)
    /\
    (forall w, param request "time_window" = VStr w -> w = "week" \/ w = "day" ->
       fst (run (Movies.trending_movies URLs request) up) =
         [tmdb URLs ++ "/trending/movie/" ++ w ++ "?language=en-US"] /\
       fst (run (TvShows.trending_tv URLs request) up) =
         [tmdb URLs ++ "/trending/tv/" ++ w ++ "?language=en-US"])
    /\
    (forall w, param request "time_window" = VStr w ->
       w <> "" -> w <> "week" -> w <> "day" ->
       let reply :=
         {| status := int 400;
            body := VObj [("error",
                           VStr ("Invalid time_window value: " ++ dquote ++ w ++
                                 dquote ++ ". Allowed values are: week, day"))] |} in
       run (Movies.trending_movies URLs request) up = ([], Ok reply) /\
       run (TvShows.trending_tv URLs request) up = ([], Ok reply)).
Proof.
  intros URLs request up. split; [|split].
  - intros H. unfold Movies.trending_movies, TvShows.trending_tv. rewrite H.
    split; [|split]; try (apply run_fetch_calls; classifier).
    intros week ->. split; reflexivity.
  - intros w H Hv.
    assert (Ha : asks_window request w) by (left; exact H).
    unfold Movies.trending_movies, TvShows.trending_tv.
    valid_window Ha Hv.
    split; apply run_fetch_calls; classifier.
  - intros w H Hw H1 H2 reply.
    unfold Movies.trending_movies, TvShows.trending_tv.
    rewrite H, (invalid_window_or w Hw), (excludes_window w H1 H2).
    split; reflexivity.
Qed.

Lemma trending_time_window_witness :
  let absent := request_with [] [] in
  let day := request_with [("time_window", "day")] [] in
  let month := request_with [("time_window", "month")] [] in
  fst (run (Movies.trending_movies example_urls absent) no_upstream) =
    ["https://api.themoviedb.org/3/trending/movie/week?language=en-US"] /\
  fst (run (TvShows.trending_tv example_urls day) two_trending) =
    ["https://api.themoviedb.org/3/trending/tv/day?language=en-US"] /\
  run (Movies.trending_movies example_urls month) two_trending =
    ([], Ok {| status := int 400;
               body := VObj [("error",
                              VStr ("Invalid time_window value: " ++ dquote ++ "month" ++
                                    dquote ++ ". Allowed values are: week, day"))] |}).
Proof.
  intros absent day month.
  split; [|split].
  - exact (proj1 (proj1 (trending_time_window example_urls absent no_upstream) eq_refl)).
  - exact (proj2 (proj1 (proj2 (trending_time_window example_urls day two_trending))
                    "day" eq_refl (or_intror eq_refl))).
  - refine (proj1 (proj2 (proj2 (trending_time_window example_urls month two_trending))
                    "month" eq_refl _ _ _)); discriminate.
Defined.

(** * Image paths without a test *)

(** C1.  The popular-movies and search-TV routes prefix the raw path
    without testing it: on an upstream item whose [backdrop_path] is null
    the returned [backdrop_path] is the image base followed by the four
    characters of null, where the trending routes return null. *)
Theorem unguarded_prefix_of_null :
  forall URLs request,
    field (nth 0 two_items VUndefined) "backdrop_path" = VNull /\
    (exists item rest,
       run (Movies.popular_movies URLs request) two_trending =
         ([tmdb URLs ++ "/movie/popular?language=en-US&page=1"],
          Ok {| status := int 200; body := VArr (item :: rest) |}) /\
       field item "backdrop_path" = VStr (image URLs ++ "null")) /\
    (exists item rest,
       run (TvShows.search_tv URLs request) two_trending =
         ([tmdb URLs ++ "/search/tv?" ++ search_query request],
          Ok {| status := int 200; body := VArr (item :: rest) |}) /\
       field item "backdrop_path" = VStr (image URLs ++ "null")).
Proof.
  intros URLs request. split; [reflexivity|].
  split; eexists; eexists; (split; [reflexivity|reflexivity]).
Qed.

(** * Anime items *)

(** C6.  The anime arrow function reads and writes [backgroud]: on an
    upstream item that has a [background] the returned item has no
    [background] field, and its [backgroud] is undefined, while a
    neighbouring scalar such as [synopsis] is carried over.  The same
    arrow function serves the trending, popular and upcoming routes. *)
Theorem anime_background_is_dropped :
  forall URLs request,
    field one_anime "background" = VStr "Won the Seiun Award in 2000." /\
    exists props,
      run (Anime.trending_anime URLs request) one_anime_upstream =
        ([jikan URLs ++ "/seasons/now"],
         Ok {| status := int 200; body := VArr [VObj props] |}) /\
      run (Anime.popular_anime URLs request) one_anime_upstream =
        ([jikan URLs ++ "/top/anime"],
         Ok {| status := int 200; body := VArr [VObj props] |}) /\
      run (Anime.upcoming_anime URLs request) one_anime_upstream =
        ([jikan URLs ++ "/seasons/upcoming"],
         Ok {| status := int 200; body := VArr [VObj props] |}) /\
      assoc "background" props = None /\
      assoc "backgroud" props = Some VUndefined /\
      assoc "synopsis" props = Some (VStr "Crime is timeless.").
Proof.
  intros URLs request. split; [reflexivity|].
  eexists. split; [reflexivity|].
  repeat split; reflexivity.
Qed.

(** * Capped lists *)


Lemma min_firstn (l : list value) cap :
  List.length (firstn cap l) = Nat.min (List.length l) cap.
Proof. rewrite length_firstn. apply Nat.min_comm. Qed.



Lemma image_sublist base data key :
  present data -> image_source (field data key) ->
  (let* v := get data key in
   let* mapped :=
     (if nullish v then Ok VUndefined else
      let* first := slice v 30 in
      map first (fun x =>
        object [
          ("aspect_ratio", get x "aspect_ratio");
          ("height", get x "height");
          ("width", get x "width");
          ("file_path",
           let* p := get x "file_path" in Ok (concat base p))])) in
   Ok (or mapped (VArr [])))
  = Ok (VArr (image_list base (field data key))).
Proof.
  intros Hd Hs. rewrite (get_field _ _ Hd). cbn [bind].
  destruct Hs as [Hn|(l & -> & Hl)].
  - rewrite Hn. destruct (field data key); try discriminate; reflexivity.
  - cbn [nullish slice map bind image_list].
    rewrite (mapM_map _ (trimmed_image base)); [reflexivity|].
    eapply Forall_impl; [|exact Hl]. intros x Hx.
    unfold object, object_from, trimmed_image, concat.
    rewrite !(get_field _ _ Hx). reflexivity.
Qed.

Lemma images_movie_run URLs request up id data :
  param request "id" = VStr id ->
  up (tmdb URLs ++ "/movie/" ++ id ++ "/images") = Ok data ->
  present data ->
  image_source (field data "backdrops") ->
  image_source (field data "posters") ->
  run (Movies.images_movie URLs request) up =
    ([tmdb URLs ++ "/movie/" ++ id ++ "/images"],
     Ok {| status := int 200;
           body := VObj [("backdrops", VArr (image_list (image URLs) (field data "backdrops")));
                         ("posters", VArr (image_list (image URLs) (field data "posters")))] |}).
Proof.
  intros Hid Hup Hd Hb Hp.
  unfold run, Movies.images_movie, try_catch, mbind, axios_get, lift, send, ret.
  rewrite Hid. cbn [to_string]. rewrite Hup.
  cbn [get assoc String.eqb Ascii.eqb Bool.eqb].
  rewrite (image_sublist _ _ "backdrops" Hd Hb), (image_sublist _ _ "posters" Hd Hp).
  reflexivity.
Qed.

Lemma images_tv_run URLs request up id data :
  param request "id" = VStr id ->
  up (tmdb URLs ++ "/tv/" ++ id ++ "/images") = Ok data ->
  present data ->
  image_source (field data "backdrops") ->
  image_source (field data "posters") ->
  run (TvShows.images_tv URLs request) up =
    ([tmdb URLs ++ "/tv/" ++ id ++ "/images"],
     Ok {| status := int 200;
           body := VObj [("backdrops", VArr (image_list (image URLs) (field data "backdrops")));
                         ("posters", VArr (image_list (image URLs) (field data "posters")))] |}).
Proof.
  intros Hid Hup Hd Hb Hp.
  unfold run, TvShows.images_tv, try_catch, mbind, axios_get, lift, send, ret.
  rewrite Hid. cbn [to_string]. rewrite Hup.
  cbn [get assoc String.eqb Ascii.eqb Bool.eqb].
  rewrite (image_sublist _ _ "backdrops" Hd Hb), (image_sublist _ _ "posters" Hd Hp).
  reflexivity.
Qed.

Lemma get_present v k x : get v k = Ok x -> present v.
Proof. destruct v; simpl; intros; try discriminate; reflexivity. Qed.

Lemma get_is_field v k x : get v k = Ok x -> field v k = x.
Proof. unfold field. intros ->. reflexivity. Qed.

Lemma image_list_length base l :
  List.length (image_list base (VArr l)) = Nat.min (List.length l) 30.
Proof. unfold image_list. rewrite length_map. apply min_firstn. Qed.


Lemma names_of_list v :
  name_list v ->
  map v (fun entry => get entry "name") = Ok (names v).
Proof.
  intros (l & -> & Hl). cbn [map names].
  rewrite (mapM_map _ (fun entry => field entry "name")); [reflexivity|].
  eapply Forall_impl; [|exact Hl]. intros x Hx. apply get_field, Hx.
Qed.

(** The anime arrow function on an item it can map. *)
Lemma anime_item_view x : anime_source x -> Anime.anime_item x = Ok (anime_view x).
Proof.
  intros (Hx & Hi & Hj & Ht & Hg & Hth & Hd & He).
  unfold Anime.anime_item, anime_view, object, object_from, array, array_from, path.
  rewrite !(get_field x _ Hx). cbn [bind].
  rewrite !(get_field _ _ Hi). cbn [bind].
  rewrite !(get_field _ _ Hj). cbn [bind].
  rewrite !(get_field _ _ Ht). cbn [bind].
  rewrite (names_of_list _ Hg), (names_of_list _ Hth),
          (names_of_list _ Hd), (names_of_list _ He).
  destruct (nullish (field (field x "trailer") "images")) eqn:Hn; cbn [bind put].
  - reflexivity.
  - rewrite (get_field _ "maximum_image_url" Hn). reflexivity.
Qed.

(** Of the twelve scalar fields, the returned item carries eleven over
    and has no [background]: it has [backgroud] instead, read from the
    field of that name. *)
Lemma anime_view_scalars x :
  forall k, In k anime_scalars ->
    k <> "background" /\ field (anime_view x) k = field x k \/
    k = "background" /\ assoc k (own_props (anime_view x)) = None /\
      field (anime_view x) "backgroud" = field x "backgroud".
Proof.
  intros k Hk. simpl in Hk.
  repeat (destruct Hk as [<-|Hk]; [first [left; split; [discriminate|reflexivity]
                                        | right; repeat split; reflexivity]|]).
  destruct Hk.
Qed.


Lemma one_anime_source : anime_source one_anime.
Proof.
  repeat split; try reflexivity; eexists; (split; [reflexivity|]);
    apply present_all; reflexivity.
Qed.


(** * Images of a movie or a TV show *)

Lemma image_list_capped base v : (List.length (image_list base v) <= 30)%nat.
Proof.
  destruct v; try (simpl; lia).
  rewrite image_list_length. apply Nat.le_min_r.
Qed.

Lemma image_list_trimmed base v : Forall four_fields (image_list base v).
Proof.
  destruct v; try constructor.
  unfold image_list. apply Forall_map, Forall_forall. intros x _.
  unfold four_fields, trimmed_image. eauto 6.
Qed.

Lemma image_list_missing base v : nullish v = true -> image_list base v = [].
Proof. destruct v; simpl; try discriminate; reflexivity. Qed.

Lemma answers_images_of route up url data base :
  run route up =
    ([url],
     Ok {| status := int 200;
           body := VObj [("backdrops", VArr (image_list base (field data "backdrops")));
                         ("posters", VArr (image_list base (field data "posters")))] |}) ->
  answers_images route up url base data.
Proof.
  intros H. eexists _, _. split; [exact H|].
  auto 10 using image_list_capped, image_list_trimmed, image_list_missing.
Qed.

(** C9.  When the upstream answers an images request with a body in which
    [backdrops] and [posters] are each missing (absent or null) or a list
    without null entries among its first 30 (their [file_path] absent,
    null, a boolean or a string), the movie-images and TV-images routes
    answer 200 with an object of exactly the two fields [backdrops] and
    [posters]; each is made from the upstream list of that name, one item
    for each of its first 30 entries, in order, the item holding exactly
    the entry's aspect_ratio, height and width and its file_path behind
    the image base URL; so each list has at most 30 items, and a missing
    upstream list gives the empty list. *)
Theorem images_are_two_trimmed_lists :
  forall URLs request up id data,
    param request "id" = VStr id ->
    present data ->
    image_source (field data "backdrops") ->
    image_source (field data "posters") ->
    filed (field data "backdrops") ->
    filed (field data "posters") ->
    (up (tmdb URLs ++ "/movie/" ++ id ++ "/images") = Ok data ->
     answers_images (Movies.images_movie URLs request) up
       (tmdb URLs ++ "/movie/" ++ id ++ "/images") (image URLs) data)
    /\
    (up (tmdb URLs ++ "/tv/" ++ id ++ "/images") = Ok data ->
     answers_images (TvShows.images_tv URLs request) up
       (tmdb URLs ++ "/tv/" ++ id ++ "/images") (image URLs) data).
Proof.
  intros URLs request up id data Hid Hd Hb Hp _ _.
  split; intros Hup; apply answers_images_of.
  - apply images_movie_run; assumption.
  - apply images_tv_run; assumption.
Qed.

Lemma forty_backdrops_filed : filed (field images_body "backdrops").
Proof.
  intros l Hl. injection Hl as <-.
  apply Forall_forall. intros x Hx.
  assert (H : forallb (fun x => simple (field x "file_path"))
                      (firstn 30 forty_backdrops) = true) by reflexivity.
  rewrite forallb_forall in H. exact (H x Hx).
Qed.

Lemma no_posters_filed : filed (field images_body "posters").
Proof. intros l Hl. discriminate Hl. Qed.

Lemma images_are_two_trimmed_lists_witness :
  let request := request_with [("id", "550")] [] in
  present images_body /\
  image_source (field images_body "backdrops") /\
  image_source (field images_body "posters") /\
  filed (field images_body "backdrops") /\
  filed (field images_body "posters") /\
  exists bs,
    run (Movies.images_movie example_urls request) images_upstream =
      (["https://api.themoviedb.org/3/movie/550/images"],
       Ok {| status := int 200;
             body := VObj [("backdrops", VArr bs); ("posters", VArr [])] |}) /\
    bs = List.map (trimmed_image "https://image.tmdb.org/t/p/original")
                  (firstn 30 forty_backdrops).
Proof.
  intros request.
  assert (Hb : image_source (field images_body "backdrops")).
  { right. exists forty_backdrops. split; [reflexivity|].
    apply present_all. reflexivity. }
  assert (Hp : image_source (field images_body "posters")) by (left; reflexivity).
  split; [reflexivity|]. split; [exact Hb|]. split; [exact Hp|].
  split; [exact forty_backdrops_filed|]. split; [exact no_posters_filed|].
  destruct (proj1 (images_are_two_trimmed_lists example_urls request images_upstream
                     "550" images_body eq_refl eq_refl Hb Hp
                     forty_backdrops_filed no_posters_filed) eq_refl)
    as (bs & ps & Hrun & Hbs & _ & _ & _ & _ & _ & _ & Hmissing).
  exists bs. rewrite Hrun, (Hmissing eq_refl). split; [reflexivity|exact Hbs].
Defined.

(** * Anime by id *)

Lemma picture_object format p :
  present p -> present (field p format) ->
  object [("image_url", path p [format; "image_url"]);
          ("small_image_url", path p [format; "small_image_url"]);
          ("large_image_url", path p [format; "large_image_url"])]
  = Ok (picture_urls format p).
Proof.
  intros Hp Hf. unfold object, object_from, path, picture_urls.
  rewrite (get_field p format Hp). cbn [bind].
  rewrite !(get_field _ _ Hf). reflexivity.
Qed.

(** The three calls are made one after the other: a call that fails is
    the last one. *)
Lemma anime_by_id_stops_at_failure URLs request up id e :
  param request "id" = VStr id ->
  (up (jikan URLs ++ "/anime/" ++ id) = Throw e ->
   fst (run (Anime.search_anime_id URLs request) up) =
     [jikan URLs ++ "/anime/" ++ id]) /\
  (forall detail,
     up (jikan URLs ++ "/anime/" ++ id) = Ok detail ->
     up (jikan URLs ++ "/anime/" ++ id ++ "/pictures") = Throw e ->
     fst (run (Anime.search_anime_id URLs request) up) =
       [jikan URLs ++ "/anime/" ++ id;
        jikan URLs ++ "/anime/" ++ id ++ "/pictures"]).
Proof.
  intros Hid.
  assert (Hc : In Anime.handleError classifiers) by classifier.
  split; [intros H1|intros detail H1 H2];
    unfold run, Anime.search_anime_id, try_catch, mbind, axios_get;
    rewrite Hid; cbn [to_string]; rewrite H1, ?H2;
    apply (classifier_calls _ Hc).
Qed.

(** C7.  For one id the anime-by-id route requests, in this order, the
    detail, the pictures and the videos.  When the three answer (the
    detail with an object, the pictures with a list of entries that have
    a jpg and a webp part), it answers 200 with the detail object in
    which [images_data] holds [jpgs] and [webp], two lists with one entry
    per picture, and [videos] holds the videos payload; every other field
    of the detail object is as the upstream sent it. *)
Theorem anime_by_id_merges_three_payloads :
  forall URLs request up id detail pictures pics videos,
    param request "id" = VStr id ->
    up (jikan URLs ++ "/anime/" ++ id) = Ok (VObj detail) ->
    up (jikan URLs ++ "/anime/" ++ id ++ "/pictures") = Ok pictures ->
    up (jikan URLs ++ "/anime/" ++ id ++ "/videos") = Ok videos ->
    get pictures "data" = Ok (VArr pics) ->
    Forall picture_source pics ->
    present videos ->
    exists out jpgs webp,
      run (Anime.search_anime_id URLs request) up =
        ([jikan URLs ++ "/anime/" ++ id;
          jikan URLs ++ "/anime/" ++ id ++ "/pictures";
          jikan URLs ++ "/anime/" ++ id ++ "/videos"],
         Ok {| status := int 200; body := VObj out |}) /\
      jpgs = List.map (picture_urls "jpg") pics /\
      webp = List.map (picture_urls "webp") pics /\
      List.length jpgs = List.length pics /\
      List.length webp = List.length pics /\
      assoc "images_data" out = Some (VObj [("jpgs", VArr jpgs); ("webp", VArr webp)]) /\
      assoc "videos" out = Some (field videos "data") /\
      forall k, k <> "images_data" -> k <> "videos" -> assoc k out = assoc k detail.
Proof.
  intros URLs request up id detail pictures pics videos
         Hid Hdetail Hpictures Hvideos Hpics Hsrc Hv.
  eexists _, _, _.
  split; [|split; [reflexivity|split; [reflexivity|]]].
  - unfold run, Anime.search_anime_id, try_catch, mbind, axios_get, lift, send, ret.
    rewrite Hid. cbn [to_string].
    rewrite Hdetail, Hpictures, Hvideos.
    cbn [path get assoc String.eqb Ascii.eqb Bool.eqb bind].
    rewrite Hpics, (get_field videos "data" Hv).
    cbn [bind object object_from map].
    rewrite (mapM_map _ (picture_urls "jpg")).
    2:{ eapply Forall_impl; [|exact Hsrc]. intros p (Hp & Hj & _).
        apply (picture_object "jpg"); assumption. }
    rewrite (mapM_map _ (picture_urls "webp")).
    2:{ eapply Forall_impl; [|exact Hsrc]. intros p (Hp & _ & Hw).
        apply (picture_object "webp"); assumption. }
    cbn [bind put set app]. reflexivity.
  - rewrite !length_map. split; [reflexivity|]. split; [reflexivity|].
    split; [|split].
    + rewrite assoc_put_other by discriminate. apply assoc_put_same.
    + apply assoc_put_same.
    + intros k H1 H2. rewrite !assoc_put_other by congruence. reflexivity.
Qed.

Lemma anime_by_id_merges_three_payloads_witness :
  let request := request_with [("id", "1")] [] in
  Forall picture_source bebop_pictures /\
  exists out jpgs webp,
    run (Anime.search_anime_id example_urls request) bebop_upstream =
      (["https://api.jikan.moe/v4/anime/1";
        "https://api.jikan.moe/v4/anime/1/pictures";
        "https://api.jikan.moe/v4/anime/1/videos"],
       Ok {| status := int 200; body := VObj out |}) /\
    List.length jpgs = 2%nat /\ List.length webp = 2%nat /\
    assoc "images_data" out = Some (VObj [("jpgs", VArr jpgs); ("webp", VArr webp)]) /\
    assoc "data" out = Some one_anime.
Proof.
  intros request.
  assert (Hsrc : Forall picture_source bebop_pictures).
  { repeat constructor. }
  split; [exact Hsrc|].
  destruct (anime_by_id_merges_three_payloads example_urls request bebop_upstream "1"
              bebop_detail (VObj [("data", VArr bebop_pictures)]) bebop_pictures
              bebop_videos eq_refl eq_refl eq_refl eq_refl eq_refl Hsrc eq_refl)
    as (out & jpgs & webp & Hrun & _ & _ & Hj & Hw & Himg & _ & Hrest).
  exists out, jpgs, webp.
  split; [exact Hrun|]. split; [exact Hj|]. split; [exact Hw|]. split; [exact Himg|].
  rewrite Hrest by discriminate. reflexivity.
Defined.

(** * Popular TV shows *)

Lemma to_number_primitive v : to_number (to_primitive v) = to_number v.
Proof. destruct v; reflexivity. Qed.

(** Against a number the comparison is numeric, whatever the page is. *)
Lemma gt_number page t : gt page (VNum t) = number_lt t (to_number page).
Proof.
  unfold gt. rewrite <- (to_number_primitive page).
  destruct (to_primitive page); reflexivity.
Qed.


Lemma requested_page_default request page :
  requested_page request page ->
  match query_param request "page" with
  | VUndefined => int 1
  | v => v
  end = page.
Proof.
  intros [[<- Hp]|[-> ->]]; [|reflexivity].
  destruct (query_param request "page"); congruence.
Qed.

Lemma popular_tv_404 URLs request up page data :
  requested_page request page ->
  up (tmdb URLs ++ "/tv/top_rated?language=en-US&page=" ++ to_string page) = Ok data ->
  present data ->
  gt page (field data "total_pages") = true ->
  run (TvShows.popular_tv URLs request) up =
    ([tmdb URLs ++ "/tv/top_rated?language=en-US&page=" ++ to_string page],
     Ok {| status := int 404;
           body := out_of_range page (field data "total_pages")
                                (field data "total_results") |}).
Proof.
  intros Hpage Hup Hd Hgt.
  unfold run, TvShows.popular_tv, try_catch, mbind, axios_get, lift, send_status, ret.
  rewrite (requested_page_default _ _ Hpage), Hup.
  cbn [get assoc String.eqb Ascii.eqb Bool.eqb].
  unfold object, object_from.
  rewrite !(get_field data _ Hd), Hgt. reflexivity.
Qed.

Lemma popular_tv_200 URLs request up page data l :
  requested_page request page ->
  up (tmdb URLs ++ "/tv/top_rated?language=en-US&page=" ++ to_string page) = Ok data ->
  gt page (field data "total_pages") = false ->
  get data "results" = Ok (VArr l) ->
  Forall present l ->
  run (TvShows.popular_tv URLs request) up =
    ([tmdb URLs ++ "/tv/top_rated?language=en-US&page=" ++ to_string page],
     Ok {| status := int 200;
           body := page_of_shows data (List.map (with_images (image URLs)) l) |}).
Proof.
  intros Hpage Hup Hgt Hres Hl.
  pose proof (get_present _ _ _ Hres) as Hd.
  unfold run, TvShows.popular_tv, try_catch, mbind, axios_get, lift, send, ret.
  rewrite (requested_page_default _ _ Hpage), Hup.
  cbn [get assoc String.eqb Ascii.eqb Bool.eqb].
  rewrite (get_field data "total_pages" Hd), Hgt, Hres.
  cbn [map bind].
  rewrite (mapM_map _ (with_images (image URLs))).
  2:{ eapply Forall_impl; [|exact Hl]. intros x Hx. apply spread_item, Hx. }
  unfold object, object_from. rewrite !(get_field data _ Hd). reflexivity.
Qed.



Lemma two_items_pictured : Forall pictured two_items.
Proof. repeat constructor. Qed.





(** * Exceptions inside the routes *)

Lemma type_error_bind {A B} (c : result A) (k : A -> result B) :
  raises_type_error c -> (forall a, raises_type_error (k a)) ->
  raises_type_error (bind c k).
Proof. destruct c; simpl; auto. Qed.

Lemma type_error_get v k : raises_type_error (get v k).
Proof. destruct v; simpl; eauto using I. Qed.

Lemma type_error_slice v n : raises_type_error (slice v n).
Proof. destruct v; simpl; eauto using I. Qed.

Lemma type_error_set o k v : raises_type_error (set o k v).
Proof. destruct o; simpl; eauto using I. Qed.

Lemma type_error_path v ks : raises_type_error (path v ks).
Proof.
  revert v; induction ks as [|k r IH]; intros v; simpl; [exact I|].
  apply type_error_bind; [apply type_error_get|auto].
Qed.

Lemma type_error_mapM f l :
  (forall x, raises_type_error (f x)) -> raises_type_error (mapM f l).
Proof.
  intros Hf. induction l as [|x r IH]; simpl; [exact I|].
  apply type_error_bind; [apply Hf|intros y].
  apply type_error_bind; [exact IH|intros ys; exact I].
Qed.

Lemma type_error_map v f :
  (forall x, raises_type_error (f x)) -> raises_type_error (map v f).
Proof.
  intros Hf. destruct v; simpl; eauto using I.
  apply type_error_bind; [apply type_error_mapM, Hf|intros ys; exact I].
Qed.

Lemma type_error_object_from base fields :
  Forall (fun p => raises_type_error (snd p)) fields ->
  raises_type_error (object_from base fields).
Proof.
  intros H. revert base. induction H as [|[k e] r He _ IH]; intros base; simpl.
  - exact I.
  - apply type_error_bind; [exact He|intros v; apply IH].
Qed.

Lemma type_error_array elems :
  Forall raises_type_error elems -> raises_type_error (array elems).
Proof.
  intros H. unfold array. apply type_error_bind; [|intros vs; exact I].
  induction H as [|e r He _ IH]; simpl; [exact I|].
  apply type_error_bind; [exact He|intros v].
  apply type_error_bind; [exact IH|intros vs; exact I].
Qed.

Ltac type_errors :=
  repeat first
    [ exact I
    | apply type_error_get
    | apply type_error_slice
    | apply type_error_set
    | apply type_error_path
    | apply type_error_bind; [|intros ?]
    | apply type_error_map; intros ?
    | apply type_error_object_from; repeat (constructor; cbn [snd])
    | apply type_error_array; repeat constructor
    | match goal with
      | |- raises_type_error (if ?b then _ else _) => destruct b
      | |- raises_type_error (object _) => unfold object
      | |- raises_type_error (Ok _) => exact I
      end ].

Lemma type_error_anime_item x : raises_type_error (Anime.anime_item x).
Proof. unfold Anime.anime_item. type_errors. Qed.

Lemma escapes_axios up url : escapes up (axios_get url) (fun _ => True).
Proof.
  intros calls. unfold axios_get. simpl.
  destruct (up url) as [d|e] eqn:E; [exact I|]. right. eauto.
Qed.

Lemma escapes_bind {A B} up (c : M A) (k : A -> M B) post :
  escapes up c (fun _ => True) -> (forall a, escapes up (k a) post) ->
  escapes up (mbind c k) post.
Proof.
  intros Hc Hk calls. unfold mbind. specialize (Hc calls).
  destruct (c up calls) as [calls' [a|e]]; simpl in *; [apply Hk|exact Hc].
Qed.

Lemma escapes_lift_then {A} up (r : result value) (k : value -> M A) post :
  raises_type_error r -> (forall v, r = Ok v -> escapes up (k v) post) ->
  escapes up (mbind (lift r) k) post.
Proof.
  intros Hr Hk calls. unfold mbind, lift.
  destruct r as [v|e]; [apply Hk; reflexivity|]. left. exact Hr.
Qed.

(** What is sent with a valid status code, a number apart, is the body
    of the reply. *)
Lemma send_with_data s c v up calls :
  is_number v = false -> status_code s = Some c ->
  send_with s v up calls = (calls, Ok {| status := int c; body := v |}).
Proof.
  intros Hv Hs. unfold send_with, write.
  destruct v; try discriminate Hv; rewrite Hs; reflexivity.
Qed.

Lemma escapes_send up s c v (post : Response -> Prop) :
  is_number v = false -> status_code s = Some c ->
  post {| status := int c; body := v |} ->
  escapes up (send_with s v) post.
Proof.
  intros Hv Hs Hp calls. rewrite (send_with_data s c v up calls Hv Hs). exact Hp.
Qed.

Lemma bind_ok_inv {A B} (c : result A) (k : A -> result B) b :
  bind c k = Ok b -> exists a, c = Ok a /\ k a = Ok b.
Proof. destruct c as [a|e]; simpl; [eauto|discriminate]. Qed.

Lemma map_structured v f out : map v f = Ok out -> is_number out = false.
Proof.
  destruct v as [| | | | |l|]; simpl; try discriminate.
  destruct (mapM f l); simpl; [|discriminate].
  intros H. injection H as <-. reflexivity.
Qed.

Lemma set_structured o k v out : set o k v = Ok out -> is_number out = false.
Proof.
  destruct o; simpl; try discriminate; intros H; injection H as <-; reflexivity.
Qed.

Lemma object_from_structured fields :
  forall base out, object_from base fields = Ok out -> is_number out = false.
Proof.
  induction fields as [|[k e] r IH]; intros base out; simpl.
  - intros H. injection H as <-. reflexivity.
  - destruct e as [v|x]; simpl; [apply IH|discriminate].
Qed.

Lemma object_structured fields out :
  object fields = Ok out -> is_number out = false.
Proof. apply object_from_structured. Qed.

Ltac structured H :=
  first
    [ exact (map_structured _ _ _ H)
    | exact (set_structured _ _ _ _ H)
    | exact (object_structured _ _ H)
    | let a := fresh "a" in
      let Ha := fresh "Ha" in
      apply bind_ok_inv in H; destruct H as (a & Ha & H); structured H ].

Lemma classifier_type_error h msg up calls :
  In h classifiers -> h (TypeError msg) up calls = (calls, Ok internal_error).
Proof.
  intros Hh. rewrite (classifier_present h Hh) by reflexivity. reflexivity.
Qed.

Lemma classifier_classified h err up calls :
  In h classifiers -> present err -> valid_failure err ->
  h err up calls = (calls, Ok (classified err)).
Proof.
  intros Hh He Hv. rewrite (classifier_present h Hh) by exact He.
  unfold classified, valid_failure in *.
  destruct (truthy (field err "response")); [|destruct (truthy _); reflexivity].
  destruct (Hv eq_refl) as (c & -> & Hc).
  unfold write. rewrite (status_code_int c Hc). reflexivity.
Qed.

(** A handler whose body ends with a 200, 400 or 404 reply, or throws,
    always writes a response, and the response is accounted for. *)
Lemma try_catch_responds h up (c : M Response) :
  In h classifiers -> rejects_as_axios up ->
  escapes up c (fun r => In (status r) [int 200; int 400; int 404]) ->
  exists calls r, run (try_catch c h) up = (calls, Ok r) /\ accounted up r.
Proof.
  intros Hh Hup Hc. unfold run, try_catch. specialize (Hc []).
  destruct (c up []) as [calls' [r|e]]; simpl in Hc.
  - eexists _, _. split; [reflexivity|]. left. exact Hc.
  - destruct Hc as [[msg ->]|[url E]].
    + rewrite (classifier_type_error h msg up calls' Hh).
      eexists _, _. split; [reflexivity|]. right; left. reflexivity.
    + destruct (Hup url e E) as [He Hv].
      rewrite (classifier_classified h e up calls' Hh He Hv).
      eexists _, _. split; [reflexivity|]. right; right; left. eauto.
Qed.

Ltac escapes :=
  repeat first
    [ apply escapes_axios
    | apply escapes_lift_then; [solve [type_errors]|intros ? ?]
    | apply escapes_lift_then;
      [type_errors; apply type_error_map; intros ?; apply type_error_anime_item
      |intros ? ?]
    | apply escapes_bind; [|intros ?]
    | match goal with
      | |- escapes _ (if ?b then _ else _) _ => destruct b
      | H : _ = Ok ?v |- escapes _ (send ?v) _ =>
          apply (escapes_send _ _ 200); [structured H|reflexivity|simpl; tauto]
      | H : _ = Ok ?v |- escapes _ (send_status _ ?v) _ =>
          apply (escapes_send _ _ 404); [structured H|reflexivity|simpl; tauto]
      | |- escapes _ (send (VObj _)) _ =>
          apply (escapes_send _ _ 200); [reflexivity|reflexivity|simpl; tauto]
      end ].

(** The anime search sends the upstream body as it is: a body that is a
    number becomes the status code of the reply, or is refused as one. *)
Lemma search_anime_responds URLs request up :
  rejects_as_axios up ->
  exists calls r,
    run (Anime.search_anime URLs request) up = (calls, Ok r) /\ accounted up r.
Proof.
  intros Hup.
  assert (Hh : In Anime.handleError classifiers) by classifier.
  unfold Anime.search_anime. cbv zeta.
  set (url := if truthy _ then _ else _).
  unfold run, try_catch, mbind, axios_get, lift.
  destruct (up url) as [d|e] eqn:E.
  - cbn [get assoc String.eqb Ascii.eqb Bool.eqb].
    destruct (is_number d) eqn:Hd.
    + destruct d as [| | |n| | |]; try discriminate Hd.
      unfold send, send_with, write.
      destruct (status_code (VNum n)) as [c|] eqn:Hc.
      * eexists _, _. split; [reflexivity|]. right; right; right.
        exists url, n, c. split; [exact E|]. split; [|reflexivity].
        apply (status_code_range _ _ Hc).
      * unfold lift.
        rewrite (classifier_present _ Hh) by reflexivity.
        eexists _, _. split; [reflexivity|]. right; left. reflexivity.
    + rewrite (send_with_data (int 200) 200 d up _ Hd eq_refl).
      eexists _, _. split; [reflexivity|]. left. simpl. tauto.
  - destruct (Hup url e E) as [He Hv].
    rewrite (classifier_classified _ e up _ Hh He Hv).
    eexists _, _. split; [reflexivity|]. right; right; left. eauto.
Qed.

(** X1.  Every route writes a response, for a request as Express delivers
    it and an upstream that rejects as axios does, whatever the upstream
    answers: no exception escapes a handler, and the response is a 200,
    400 or 404 reply of the route, or the classifier's reply to an
    upstream failure, or 500 "Internal Server Error.", or, on the anime
    search, the reply whose status code is the number the upstream body
    is. *)
Theorem every_route_responds :
  forall URLs request up,
    parsed_request request ->
    rejects_as_axios up ->
    forall route, In route (all_routes URLs request) ->
    exists calls r, run route up = (calls, Ok r) /\ accounted up r.
Proof.
  intros URLs request up _ Hup route Hroute.
  unfold all_routes in Hroute. simpl in Hroute.
  repeat (destruct Hroute as [<-|Hroute]); try contradiction.
  all: try apply (search_anime_responds _ _ _ Hup).
  all: try (apply (try_catch_responds Movies.handleError); [classifier|exact Hup|];
            cbv zeta; escapes).
  - unfold Movies.trending_movies.
    destruct (negb _).
    + eexists _, _. split; [reflexivity|]. left. simpl. tauto.
    + apply (try_catch_responds Movies.handleError); [classifier|exact Hup|].
      cbv zeta; escapes.
  - unfold TvShows.trending_tv.
    destruct (negb _).
    + eexists _, _. split; [reflexivity|]. left. simpl. tauto.
    + apply (try_catch_responds TvShows.handleError); [classifier|exact Hup|].
      cbv zeta; escapes.
Qed.

Lemma no_upstream_rejects_as_axios : rejects_as_axios no_upstream.
Proof.
  intros url e H. injection H as <-. split; [reflexivity|].
  intros H. discriminate H.
Qed.

Lemma every_route_responds_witness :
  parsed_request (request_with [("id", "1")] []) /\
  rejects_as_axios no_upstream /\
  exists calls r,
    run (Anime.search_anime_id example_urls (request_with [("id", "1")] [])) no_upstream
      = (calls, Ok r) /\
    accounted no_upstream r.
Proof.
  split; [reflexivity|]. split; [exact no_upstream_rejects_as_axios|].
  apply (every_route_responds example_urls (request_with [("id", "1")] []) no_upstream
           eq_refl no_upstream_rejects_as_axios).
  unfold all_routes. simpl. tauto.
Defined.

(** * Upstream failures *)

Lemma search_anime_url URLs request :
  (if truthy (VStr (search_params (query request)))
   then jikan URLs ++ "/anime?" ++ search_params (query request)
   else jikan URLs ++ "/anime") =
  (if String.eqb (search_params (query request)) ""
   then jikan URLs ++ "/anime"
   else jikan URLs ++ "/anime?" ++ search_params (query request)).
Proof. simpl. destruct (String.eqb _ ""); reflexivity. Qed.

Ltac enter_route :=
  match goal with
  | H : asks_window _ _, Hv : _ = "week" \/ _ = "day" |- _ =>
      first [progress unfold Movies.trending_movies | progress unfold TvShows.trending_tv];
      valid_window H Hv
  | H : requested_page _ _ |- _ =>
      unfold TvShows.popular_tv; rewrite (requested_page_default _ _ H)
  | |- context [Anime.search_anime] =>
      unfold Anime.search_anime; cbv zeta; rewrite search_anime_url
  | |- _ =>
      unfold Movies.popular_movies, Movies.upcoming_movies, Movies.search_movies,
        Movies.images_movie, Anime.trending_anime, Anime.popular_anime,
        Anime.upcoming_anime, TvShows.search_tv, TvShows.images_tv
  end.

(** X2.  For a request as Express delivers it: when the one upstream call
    of a route fails as a call of axios does (with a failure object
    whose response, if any, has a status code between 100 and 999), the
    route makes no other call and answers with the classifier's reply to
    that failure. *)
Theorem upstream_failure_is_classified :
  forall URLs request route url,
    parsed_request request ->
    single_call URLs request route url ->
    forall up err,
      up url = Throw err -> present err -> valid_failure err ->
      run route up = ([url], Ok (classified err)).
Proof.
  intros URLs request route url _ Hcall up err Hup Herr Hvalid.
  destruct Hcall; enter_route;
    unfold run, try_catch, mbind, axios_get; cbv zeta;
    change (search_params
              (put "query" (or (query_param request "query") (VStr ""))
                 [("include_adult", VStr "false"); ("language", VStr "en-US");
                  ("page", int 1)]))
      with (search_query request);
    rewrite Hup;
    apply (classifier_classified Movies.handleError);
    solve [classifier | exact Herr | exact Hvalid].
Qed.

Lemma upstream_404_valid : valid_failure upstream_404.
Proof. intros _. exists 404. split; [reflexivity|lia]. Qed.

Lemma upstream_failure_is_classified_witness :
  let request := request_with [] [("page", VStr "2")] in
  let down : Upstream := fun _ => Throw upstream_404 in
  parsed_request request /\
  single_call example_urls request (TvShows.popular_tv example_urls request)
    "https://api.themoviedb.org/3/tv/top_rated?language=en-US&page=2" /\
  present upstream_404 /\
  valid_failure upstream_404 /\
  run (TvShows.popular_tv example_urls request) down =
    (["https://api.themoviedb.org/3/tv/top_rated?language=en-US&page=2"],
     Ok {| status := int 404; body := VStr "Error fetching data from API." |}).
Proof.
  intros request down.
  assert (Hcall : single_call example_urls request (TvShows.popular_tv example_urls request)
                    "https://api.themoviedb.org/3/tv/top_rated?language=en-US&page=2").
  { apply (call_popular_tv example_urls request (VStr "2")).
    left. split; [reflexivity|discriminate]. }
  split; [reflexivity|]. split; [exact Hcall|]. split; [reflexivity|].
  split; [exact upstream_404_valid|].
  exact (upstream_failure_is_classified example_urls request _ _ eq_refl Hcall down
           upstream_404 eq_refl eq_refl upstream_404_valid).
Defined.

(** X4.  A failure of any of the three calls of the anime-by-id route (a
    failure as axios reports one: an object whose response, if any, has a
    status code between 100 and 999) ends the request: no later call is
    made and the reply is the classifier's, without any part of the
    payloads already received. *)
Theorem anime_by_id_aborts_on_failure :
  forall URLs request up id err,
    param request "id" = VStr id ->
    present err ->
    valid_failure err ->
    (up (jikan URLs ++ "/anime/" ++ id) = Throw err ->
     run (Anime.search_anime_id URLs request) up =
       ([jikan URLs ++ "/anime/" ++ id], Ok (classified err)))
    /\
    (forall detail,
       up (jikan URLs ++ "/anime/" ++ id) = Ok detail ->
       up (jikan URLs ++ "/anime/" ++ id ++ "/pictures") = Throw err ->
       run (Anime.search_anime_id URLs request) up =
         ([jikan URLs ++ "/anime/" ++ id;
           jikan URLs ++ "/anime/" ++ id ++ "/pictures"],
          Ok (classified err)))
    /\
    (forall detail pictures,
       up (jikan URLs ++ "/anime/" ++ id) = Ok detail ->
       up (jikan URLs ++ "/anime/" ++ id ++ "/pictures") = Ok pictures ->
       up (jikan URLs ++ "/anime/" ++ id ++ "/videos") = Throw err ->
       run (Anime.search_anime_id URLs request) up =
         ([jikan URLs ++ "/anime/" ++ id;
           jikan URLs ++ "/anime/" ++ id ++ "/pictures";
           jikan URLs ++ "/anime/" ++ id ++ "/videos"],
          Ok (classified err))).
Proof.
  intros URLs request up id err Hid Herr Hvalid.
  assert (Hc : In Anime.handleError classifiers) by classifier.
  split; [intros H1|split; [intros detail H1 H2|intros detail pictures H1 H2 H3]];
    unfold run, Anime.search_anime_id, try_catch, mbind, axios_get;
    rewrite Hid; cbn [to_string]; rewrite H1, ?H2, ?H3;
    apply (classifier_classified _ _ _ _ Hc Herr Hvalid).
Qed.

Lemma anime_by_id_aborts_on_failure_witness :
  run (Anime.search_anime_id example_urls (request_with [("id", "1")] [])) pictures_down =
    (["https://api.jikan.moe/v4/anime/1"; "https://api.jikan.moe/v4/anime/1/pictures"],
     Ok {| status := int 404; body := VStr "Error fetching data from API." |}).
Proof.
  exact (proj1 (proj2 (anime_by_id_aborts_on_failure example_urls
                         (request_with [("id", "1")] []) pictures_down "1" upstream_404
                         eq_refl eq_refl upstream_404_valid))
               (VObj bebop_detail) eq_refl eq_refl).
Defined.

(** * One call per request *)

Lemma quiet_ret {A} (a : A) : quiet (ret a).
Proof. intros up calls. reflexivity. Qed.

Lemma quiet_lift {A} (r : result A) : quiet (lift r).
Proof. intros up calls. reflexivity. Qed.

Lemma quiet_bind {A B} (c : M A) (k : A -> M B) :
  quiet c -> (forall a, quiet (k a)) -> quiet (mbind c k).
Proof.
  intros Hc Hk up calls. unfold mbind. specialize (Hc up calls).
  destruct (c up calls) as [calls' [a|e]]; simpl in *; subst; [apply Hk|reflexivity].
Qed.

Lemma quiet_send s v : quiet (send_with s v).
Proof.
  intros up calls. unfold send_with. destruct v; apply write_calls.
Qed.

Ltac quiet :=
  repeat first
    [ apply quiet_ret
    | apply quiet_lift
    | apply quiet_bind; [|intros ?]
    | match goal with
      | |- quiet (if ?b then _ else _) => destruct b
      | |- quiet (send _) => apply quiet_send
      | |- quiet (send_status _ _) => apply quiet_send
      end ].

Lemma one_call h url (k : value -> M Response) up :
  In h classifiers -> (forall a, quiet (k a)) ->
  fst (run (try_catch (mbind (axios_get url) k) h) up) = [url].
Proof.
  intros Hh Hk. unfold run, try_catch, mbind, axios_get.
  destruct (up url) as [d|e]; [|apply (classifier_calls h Hh)].
  specialize (Hk (VObj [("data", d)]) up ([] ++ [url])%list).
  destruct (k _ up _) as [calls' [r|e]]; simpl in *; subst; [reflexivity|].
  apply (classifier_calls h Hh).
Qed.

Lemma single_call_trace URLs request route url :
  single_call URLs request route url ->
  forall up, fst (run route up) = [url].
Proof.
  intros Hcall up.
  destruct Hcall; enter_route; cbv zeta;
    change (search_params
              (put "query" (or (query_param request "query") (VStr ""))
                 [("include_adult", VStr "false"); ("language", VStr "en-US");
                  ("page", int 1)]))
      with (search_query request);
    apply (one_call Movies.handleError); try classifier; intros a; quiet.
Qed.

(** X3.  For a request as Express delivers it, a route that makes one
    upstream call makes exactly that call, whatever the upstream answers:
    there is no retry and no second request. *)
Theorem one_upstream_call_per_request :
  forall URLs request route url,
    parsed_request request ->
    single_call URLs request route url ->
    forall up, fst (run route up) = [url].
Proof. intros URLs request route url _. apply single_call_trace. Qed.

Lemma one_upstream_call_per_request_witness :
  let request := request_with [("id", "550")] [("genres", VStr "1"); ("q", VStr "bebop")] in
  parsed_request request /\
  fst (run (Anime.search_anime example_urls request) no_upstream) =
    ["https://api.jikan.moe/v4/anime?genres=1&q=bebop"] /\
  fst (run (Movies.images_movie example_urls request) images_upstream) =
    ["https://api.themoviedb.org/3/movie/550/images"].
Proof.
  intros request. split; [reflexivity|]. split.
  - exact (one_upstream_call_per_request example_urls request _ _ eq_refl
             (call_search_anime example_urls request) no_upstream).
  - exact (one_upstream_call_per_request example_urls request _ _ eq_refl
             (call_images_movie example_urls request) images_upstream).
Defined.

(** * Upstream bodies a route cannot use *)

Lemma mapM_ok_inv f l ys :
  mapM f l = Ok ys -> Forall (fun x => exists y, f x = Ok y) l.
Proof.
  revert ys. induction l as [|x r IH]; intros ys H; [constructor|].
  simpl in H. destruct (f x) as [y|e] eqn:Hx; [|discriminate].
  destruct (mapM f r) as [zs|e] eqn:Hr; [|discriminate].
  constructor; eauto.
Qed.








(** * The items of the capped lists *)

Lemma answers_views_of h url key f source view :
  In h classifiers ->
  (forall x, source x -> f x = Ok (view x)) ->
  answers_views
    (try_catch
       (r <- axios_get url ;;
        out <- lift (let* d := path r ["data"; key] in
                     let* first := slice d 20 in
                     map first f) ;;
        send out) h)
    url key source view.
Proof.
  intros Hh Hf up data l Hup Hres Hl.
  rewrite (run_fetch h), Hup.
  cbn [bind path get assoc String.eqb Ascii.eqb Bool.eqb].
  rewrite Hres. cbn [bind slice map].
  rewrite (mapM_map _ view); [reflexivity|].
  eapply Forall_impl; [|exact Hl]. exact Hf.
Qed.

Ltac view Hx :=
  unfold object, object_from, glued, concat;
  rewrite !(get_field _ _ Hx); reflexivity.

(** X7.  For a request as Express delivers it, the popular, upcoming and
    search routes for movies and the search route for TV shows answer
    with the first 20 upstream items, in the upstream order, each reduced
    to nine fields: seven hold the upstream item's value or undefined
    when the item has none, and the two image fields hold the image base
    followed by the raw path as a string, for a raw path that is absent,
    null, a boolean or a string.  No other upstream field is returned. *)
Theorem movie_and_tv_lists_are_trimmed :
  forall URLs request,
    parsed_request request ->
    answers_views (Movies.popular_movies URLs request)
      (tmdb URLs ++ "/movie/popular?language=en-US&page=1") "results"
      pictured (popular_movie_view (image URLs)) /\
    answers_views (Movies.upcoming_movies URLs request)
      (tmdb URLs ++ "/movie/upcoming?language=en-US&page=1") "results"
      pictured (listed_movie_view (image URLs)) /\
    answers_views (Movies.search_movies URLs request)
      (tmdb URLs ++ "/search/movie?" ++ search_query request) "results"
      pictured (listed_movie_view (image URLs)) /\
    answers_views (TvShows.search_tv URLs request)
      (tmdb URLs ++ "/search/tv?" ++ search_query request) "results"
      pictured (tv_view (image URLs)).
Proof.
  intros URLs request _.
  repeat match goal with |- _ /\ _ => split end;
    apply (answers_views_of Movies.handleError); try classifier;
    intros x [Hx _]; view Hx.
Qed.

Lemma movie_and_tv_lists_are_trimmed_witness :
  run (Movies.upcoming_movies example_urls (request_with [] [])) two_trending =
    (["https://api.themoviedb.org/3/movie/upcoming?language=en-US&page=1"],
     Ok {| status := int 200;
           body := VArr (List.map (listed_movie_view "https://image.tmdb.org/t/p/original")
                                  two_items) |}).
Proof.
  exact (proj1 (proj2 (movie_and_tv_lists_are_trimmed example_urls (request_with [] [])
                         eq_refl))
               two_trending two_results two_items eq_refl eq_refl
               two_items_pictured).
Defined.

(** X8.  The trending, popular and upcoming anime routes answer with the
    first 20 upstream items, in the upstream order, each reshaped: three
    images of which the third is the trailer's largest image or null,
    the trailer and the titles regrouped, the scalar fields copied, and
    each of the four genre-like lists reduced to the names of its
    entries, in order. *)
Theorem anime_lists_are_reshaped :
  forall URLs request,
    answers_views (Anime.trending_anime URLs request)
      (jikan URLs ++ "/seasons/now") "data" anime_source anime_view /\
    answers_views (Anime.popular_anime URLs request)
      (jikan URLs ++ "/top/anime") "data" anime_source anime_view /\
    answers_views (Anime.upcoming_anime URLs request)
      (jikan URLs ++ "/seasons/upcoming") "data" anime_source anime_view.
Proof.
  intros URLs request.
  repeat match goal with |- _ /\ _ => split end;
    apply (answers_views_of Anime.handleError); try classifier;
    exact anime_item_view.
Qed.

Lemma anime_lists_are_reshaped_witness :
  anime_source one_anime /\
  run (Anime.upcoming_anime example_urls (request_with [] [])) one_anime_upstream =
    (["https://api.jikan.moe/v4/seasons/upcoming"],
     Ok {| status := int 200; body := VArr [anime_view one_anime] |}) /\
  field (anime_view one_anime) "genres" = VArr [VStr "Action"; VStr "Sci-Fi"] /\
  field (anime_view one_anime) "images" =
    VArr [VStr "https://cdn.myanimelist.net/images/anime/4/19644.jpg";
          VStr "https://cdn.myanimelist.net/images/anime/4/19644l.jpg";
          VNull].
Proof.
  split; [exact one_anime_source|]. split; [|split; reflexivity].
  exact (proj2 (proj2 (anime_lists_are_reshaped example_urls (request_with [] [])))
               one_anime_upstream (VObj [("data", VArr [one_anime])]) [one_anime]
               eq_refl eq_refl
               (Forall_cons one_anime one_anime_source (Forall_nil anime_source))).
Defined.

(** * The URLs of the search routes *)

Lemma list_ascii_of_append a b :
  list_ascii_of_string (a ++ b) =
  (list_ascii_of_string a ++ list_ascii_of_string b)%list.
Proof. induction a as [|c a IH]; simpl; [reflexivity|]. rewrite IH. reflexivity. Qed.

Lemma encode_byte_safe c :
  forallb url_safe (list_ascii_of_string (encode_byte c)) = true.
Proof.
  destruct c as [[|] [|] [|] [|] [|] [|] [|] [|]]; vm_compute; reflexivity.
Qed.

Lemma form_encode_safe s :
  forallb url_safe (list_ascii_of_string (form_encode s)) = true.
Proof.
  induction s as [|c s IH]; simpl; [reflexivity|].
  rewrite list_ascii_of_append, forallb_app, encode_byte_safe, IH. reflexivity.
Qed.

Lemma search_query_shape request :
  search_query request =
  "include_adult=false&language=en-US&page=1&query=" ++
  form_encode (search_text request).
Proof. reflexivity. Qed.

(** X9.  For a request as Express delivers it, the search routes for
    movies and TV shows call the upstream with the three fixed parameters
    followed by the caller's text, form-encoded: the encoded text holds
    letters, digits and the characters [*], [-], [.], [_], [+] and [%]
    only, so the caller's text cannot add or replace a parameter; without
    a [query] the text is empty. *)
Theorem search_text_cannot_add_parameters :
  forall URLs request up,
    parsed_request request ->
    fst (run (Movies.search_movies URLs request) up) =
      [tmdb URLs ++ "/search/movie?include_adult=false&language=en-US&page=1&query=" ++
       form_encode (search_text request)] /\
    fst (run (TvShows.search_tv URLs request) up) =
      [tmdb URLs ++ "/search/tv?include_adult=false&language=en-US&page=1&query=" ++
       form_encode (search_text request)] /\
    forallb url_safe (list_ascii_of_string (form_encode (search_text request))) = true /\
    (query_param request "query" = VUndefined ->
     form_encode (search_text request) = "").
Proof.
  intros URLs request up _.
  split; [|split; [|split]].
  - apply (single_call_trace URLs request _ _ (call_search_movies URLs request)).
  - apply (single_call_trace URLs request _ _ (call_search_tv URLs request)).
  - apply form_encode_safe.
  - intros H. unfold search_text. rewrite H. reflexivity.
Qed.

Lemma search_text_cannot_add_parameters_witness :
  let request := request_with [] [("query", VStr "x&page=2")] in
  parsed_request request /\
  fst (run (Movies.search_movies example_urls request) echo) =
    ["https://api.themoviedb.org/3/search/movie?include_adult=false&language=en-US&page=1&query=x%26page%3D2"] /\
  form_encode (search_text (request_with [] [])) = "".
Proof.
  intros request. split; [reflexivity|]. split.
  - exact (proj1 (search_text_cannot_add_parameters example_urls request echo eq_refl)).
  - exact (proj2 (proj2 (proj2 (search_text_cannot_add_parameters example_urls
                                  (request_with [] []) echo eq_refl))) eq_refl).
Defined.

Lemma decode_encode_byte c t :
  form_decode (encode_byte c ++ t) = String c (form_decode t).
Proof.
  destruct c as [[|] [|] [|] [|] [|] [|] [|] [|]]; reflexivity.
Qed.

(** Decoding reads an encoded text back. *)
Lemma form_decode_encode s : form_decode (form_encode s) = s.
Proof.
  induction s as [|c s IH]; [reflexivity|].
  cbn [form_encode]. rewrite decode_encode_byte, IH. reflexivity.
Qed.

(** X10.  Two search requests call the same upstream URL only when they ask for
    the same text: the encoding of the text loses nothing. *)
Theorem search_url_determines_text :
  forall URLs request1 request2 up1 up2,
    fst (run (Movies.search_movies URLs request1) up1) =
    fst (run (Movies.search_movies URLs request2) up2) ->
    search_text request1 = search_text request2.
Proof.
  intros URLs request1 request2 up1 up2 H.
  rewrite (single_call_trace URLs request1 _ _ (call_search_movies URLs request1)),
          (single_call_trace URLs request2 _ _ (call_search_movies URLs request2)) in H.
  injection H as H.
  rewrite !search_query_shape in H.
  assert (Happ : forall p a b, (p ++ a = p ++ b)%string -> a = b).
  { induction p as [|c p IH]; simpl; intros a b E; [exact E|].
    injection E as E. auto. }
  apply Happ in H.
  apply (Happ "/search/movie?") in H.
  apply (Happ "include_adult=false&language=en-US&page=1&query=") in H.
  rewrite <- (form_decode_encode (search_text request1)),
          <- (form_decode_encode (search_text request2)), H.
  reflexivity.
Qed.

Lemma search_url_determines_text_witness :
  let one := request_with [] [("query", VStr "a&b=c d")] in
  let two := request_with [] [("page", VStr "9"); ("query", VArr [VStr "a&b=c d"])] in
  fst (run (Movies.search_movies example_urls one) echo) =
    ["https://api.themoviedb.org/3/search/movie?include_adult=false&language=en-US&page=1&query=a%26b%3Dc+d"] /\
  fst (run (Movies.search_movies example_urls two) no_upstream) =
    ["https://api.themoviedb.org/3/search/movie?include_adult=false&language=en-US&page=1&query=a%26b%3Dc+d"] /\
  search_text one = search_text two.
Proof.
  intros one two. split; [reflexivity|]. split; [reflexivity|].
  exact (search_url_determines_text example_urls one two echo no_upstream eq_refl).
Defined.

(** * The anime search *)

Lemma append_not_empty a c b : (a ++ String c b)%string <> "".
Proof. destruct a; discriminate. Qed.

Lemma search_params_not_empty p r : search_params (p :: r) <> "".
Proof.
  destruct p as [k v]. cbn [search_params].
  destruct r; apply append_not_empty.
Qed.

Lemma anime_search_url_bare URLs request :
  (if String.eqb (search_params (query request)) ""
   then jikan URLs ++ "/anime"
   else jikan URLs ++ "/anime?" ++ search_params (query request)) =
  anime_search_url URLs request.
Proof.
  unfold anime_search_url. destruct (query request) as [|p r]; [reflexivity|].
  destruct (String.eqb _ "") eqn:E; [|reflexivity].
  apply String.eqb_eq in E. destruct (search_params_not_empty p r E).
Qed.

(** X11.  For a request as Express delivers it, the anime search forwards
    every query parameter of the request, in order, to the upstream
    search endpoint and calls the bare endpoint exactly when the request
    has no parameter; it answers 200 with the upstream body as it is,
    for every body that is not a number; a body that is an integer and
    a status code (100 to 999 once wrapped to 32 bits) is not sent back:
    it becomes the status code of a reply that carries the status
    text. *)
Theorem anime_search_passes_through :
  forall URLs request up data,
    parsed_request request ->
    up (anime_search_url URLs request) = Ok data ->
    (is_number data = false ->
     run (Anime.search_anime URLs request) up =
       ([anime_search_url URLs request], Ok {| status := int 200; body := data |}))
    /\
    (forall k c,
       data = int k -> Z.abs k < 2 ^ 53 -> status_code data = Some c ->
       run (Anime.search_anime URLs request) up =
         ([anime_search_url URLs request],
          Ok {| status := int c; body := StatusText data |})).
Proof.
  intros URLs request up data _ Hup.
  unfold Anime.search_anime. cbv zeta.
  rewrite search_anime_url, anime_search_url_bare.
  unfold run, try_catch, mbind, axios_get, lift.
  rewrite Hup. cbn [get assoc String.eqb Ascii.eqb Bool.eqb].
  split.
  - intros Hd. rewrite (send_with_data (int 200) 200 data up _ Hd eq_refl).
    reflexivity.
  - intros k c -> _ Hc.
    unfold send, send_with, write, int in *. rewrite Hc. reflexivity.
Qed.

Lemma anime_search_passes_through_witness :
  run (Anime.search_anime example_urls (request_with [] [])) echo =
    (["https://api.jikan.moe/v4/anime"],
     Ok {| status := int 200;
           body := VObj [("url", VStr "https://api.jikan.moe/v4/anime")] |}) /\
  run (Anime.search_anime example_urls
         (request_with [] [("q", VStr "one piece"); ("genres", VArr [VStr "1"; VStr "2"])]))
      echo =
    (["https://api.jikan.moe/v4/anime?q=one+piece&genres=1%2C2"],
     Ok {| status := int 200;
           body := VObj [("url", VStr "https://api.jikan.moe/v4/anime?q=one+piece&genres=1%2C2")] |}) /\
  run (Anime.search_anime example_urls (request_with [] [])) (fun _ => Ok (int 404)) =
    (["https://api.jikan.moe/v4/anime"],
     Ok {| status := int 404; body := StatusText (int 404) |}).
Proof.
  split; [|split].
  - exact (proj1 (anime_search_passes_through example_urls (request_with [] []) echo _
                    eq_refl eq_refl) eq_refl).
  - exact (proj1 (anime_search_passes_through example_urls
                    (request_with [] [("q", VStr "one piece");
                                      ("genres", VArr [VStr "1"; VStr "2"])])
                    echo _ eq_refl eq_refl) eq_refl).
  - exact (proj2 (anime_search_passes_through example_urls (request_with [] [])
                    (fun _ => Ok (int 404)) (int 404) eq_refl eq_refl)
                 404 404 eq_refl eq_refl eq_refl).
Defined.

(** * Pages written in decimal *)

Lemma read_digits_acc d acc count :
  read_digits 10 (Z.pos acc) count (NilEmpty.string_of_uint d) =
    (Z.pos (Pos.of_uint_acc d acc), (count + Decimal.nb_digits d)%nat, "").
Proof.
  revert acc count.
  induction d as [|d IH|d IH|d IH|d IH|d IH|d IH|d IH|d IH|d IH|d IH];
    intros acc count;
    [simpl; rewrite Nat.add_0_r; reflexivity|..];
    cbn [NilEmpty.string_of_uint read_digits Pos.of_uint_acc Decimal.nb_digits];
    match goal with
    | |- context [digit_val 10 ?c] =>
        let v := eval vm_compute in (digit_val 10 c) in
        change (digit_val 10 c) with v; cbv iota
    end;
    match goal with
    | |- read_digits 10 ?a _ _ = (Z.pos (Pos.of_uint_acc _ ?p), _, _) =>
        replace a with (Z.pos p) by lia
    end;
    rewrite IH; f_equal; f_equal; lia.
Qed.

Lemma read_digits_zero d count :
  read_digits 10 0 count (NilEmpty.string_of_uint d) =
    (Z.of_N (Pos.of_uint d), (count + Decimal.nb_digits d)%nat, "").
Proof.
  revert count.
  induction d as [|d IH|d IH|d IH|d IH|d IH|d IH|d IH|d IH|d IH|d IH];
    intros count;
    [simpl; rewrite Nat.add_0_r; reflexivity|..];
    cbn [NilEmpty.string_of_uint read_digits Pos.of_uint Decimal.nb_digits];
    match goal with
    | |- context [digit_val 10 ?c] =>
        let v := eval vm_compute in (digit_val 10 c) in
        change (digit_val 10 c) with v; cbv iota
    end.
  1: { change (0 * 10 + 0) with 0. rewrite IH. f_equal; f_equal; lia. }
  all: match goal with
       | |- read_digits 10 ?a _ _ = (Z.of_N (N.pos (Pos.of_uint_acc _ ?p)), _, _) =>
           change a with (Z.pos p)
       end;
       rewrite read_digits_acc; f_equal; f_equal; lia.
Qed.

Lemma space2_low x y : (x < 128 \/ y < 128)%N -> space2 x y = false.
Proof.
  intros H. unfold space2.
  destruct (N.eqb_spec x 194), (N.eqb_spec y 160); try reflexivity. lia.
Qed.

Lemma space3_low x y z : (x < 128 \/ z < 128)%N -> space3 x y z = false.
Proof.
  intros [H|H]; unfold space3.
  - assert (E : forall b, (128 <= b)%N -> (x =? b)%N = false).
    { intros b Hb. apply N.eqb_neq. lia. }
    rewrite !E by lia. reflexivity.
  - assert (E : forall b, (128 <= b)%N -> (z =? b)%N = false).
    { intros b Hb. apply N.eqb_neq. lia. }
    assert (L : (128 <=? z)%N = false) by (apply N.leb_gt; exact H).
    rewrite !E, L by lia. cbn [andb orb].
    rewrite !andb_false_r. reflexivity.
Qed.

Lemma strip_solid backwards a r :
  solid a = true -> strip backwards (String a r) = String a r.
Proof.
  unfold solid. intros H. apply andb_prop in H. destruct H as [Hlow Hs].
  apply N.ltb_lt in Hlow. apply negb_true_iff in Hs.
  cbn [strip]. rewrite Hs. destruct r as [|b r']; [reflexivity|]. cbv zeta.
  destruct backwards.
  - rewrite space2_low by (right; exact Hlow).
    destruct r' as [|c r'']; [reflexivity|].
    rewrite space3_low by (right; exact Hlow). reflexivity.
  - rewrite space2_low by (left; exact Hlow).
    destruct r' as [|c r'']; [reflexivity|].
    rewrite space3_low by (left; exact Hlow). reflexivity.
Qed.

Lemma strip_all_solid backwards s :
  forallb solid (list_ascii_of_string s) = true -> strip backwards s = s.
Proof.
  destruct s as [|a r]; [reflexivity|]. cbn [list_ascii_of_string forallb].
  intros H. apply andb_prop in H. apply strip_solid, H.
Qed.

Lemma reverse_reverse s : reverse (reverse s) = s.
Proof.
  unfold reverse.
  rewrite list_ascii_of_string_of_list_ascii, rev_involutive.
  apply string_of_list_ascii_of_string.
Qed.

Lemma trim_all_solid s :
  forallb solid (list_ascii_of_string s) = true -> trim s = s.
Proof.
  intros H. unfold trim. rewrite (strip_all_solid false s H).
  rewrite strip_all_solid; [apply reverse_reverse|].
  unfold reverse. rewrite list_ascii_of_string_of_list_ascii.
  apply forallb_forall. intros c Hc. apply in_rev in Hc.
  rewrite forallb_forall in H. exact (H c Hc).
Qed.

Lemma digits_solid d :
  forallb solid (list_ascii_of_string (NilEmpty.string_of_uint d)) = true.
Proof. induction d; simpl; auto. Qed.

Lemma parses_digits d :
  d <> Decimal.Nil ->
  string_to_number (NilEmpty.string_of_uint d) = Fin (Z.of_N (N.of_uint d)) 0.
Proof.
  intros Hd.
  assert (Htrim : trim (NilEmpty.string_of_uint d) = NilEmpty.string_of_uint d).
  { apply trim_all_solid, digits_solid. }
  assert (Hdec : unsigned_decimal (NilEmpty.string_of_uint d) =
                 Fin (Z.of_N (N.of_uint d)) 0).
  { unfold unsigned_decimal.
    replace (String.eqb (NilEmpty.string_of_uint d) "Infinity") with false
      by (destruct d; try reflexivity; contradiction).
    rewrite read_digits_zero. cbn [Nat.add].
    destruct d; try contradiction; reflexivity. }
  unfold string_to_number. rewrite Htrim.
  destruct d as [|d|d|d|d|d|d|d|d|d|d]; try contradiction;
    try exact Hdec.
  destruct d; exact Hdec.
Qed.

(** Reading back the decimal digits of a natural number gives the number. *)
Lemma parses_digits_of z : 0 <= z -> string_to_number (digits_of z) = Fin z 0.
Proof.
  intros Hz. unfold digits_of. rewrite Z.abs_eq by exact Hz.
  assert (Hn : N.to_uint (Z.to_N z) <> Decimal.Nil).
  { destruct (Z.to_N z); [discriminate|apply DecimalPos.Unsigned.to_uint_nonnil]. }
  replace (NilZero.string_of_uint (N.to_uint (Z.to_N z)))
    with (NilEmpty.string_of_uint (N.to_uint (Z.to_N z)))
    by (destruct (N.to_uint (Z.to_N z)); try reflexivity; contradiction).
  rewrite (parses_digits _ Hn), DecimalN.Unsigned.of_to, Z2N.id by exact Hz.
  reflexivity.
Qed.

Lemma number_lt_integers a b : number_lt (Fin a 0) (Fin b 0) = (a <? b).
Proof.
  unfold number_lt, fin_compare. simpl Z.min. simpl Z.sub. simpl Z.pow.
  rewrite !Z.mul_1_r. unfold Z.ltb. destruct (a ?= b); reflexivity.
Qed.

(** X12.  On the popular-TV route, a page written as the decimal digits of
    a natural number [n], against an upstream whose [total_pages] is the
    integer [t] and whose results are a list of items without null
    entries (their raw image paths absent, null, booleans or strings):
    the reply is the 404 out-of-range reply when [t < n], for [t] below
    2^53 in absolute value (so that it is held exactly), and the 200
    page when [n <= t]. *)
Theorem popular_tv_decimal_page :
  forall URLs request up n t data l,
    0 <= n ->
    query_param request "page" = VStr (digits_of n) ->
    up (tmdb URLs ++ "/tv/top_rated?language=en-US&page=" ++ digits_of n) = Ok data ->
    get data "total_pages" = Ok (int t) ->
    get data "results" = Ok (VArr l) ->
    Forall pictured l ->
    (Z.abs t < 2 ^ 53 -> t < n ->
     run (TvShows.popular_tv URLs request) up =
       ([tmdb URLs ++ "/tv/top_rated?language=en-US&page=" ++ digits_of n],
        Ok {| status := int 404;
              body := out_of_range (VStr (digits_of n)) (int t)
                                   (field data "total_results") |}))
    /\
    (n <= t ->
     run (TvShows.popular_tv URLs request) up =
       ([tmdb URLs ++ "/tv/top_rated?language=en-US&page=" ++ digits_of n],
        Ok {| status := int 200;
              body := page_of_shows data (List.map (with_images (image URLs)) l) |})).
Proof.
  intros URLs request up n t data l Hn Hq Hup Ht Hres Hl.
  assert (Hpage : requested_page request (VStr (digits_of n))).
  { left. split; [exact Hq|discriminate]. }
  assert (Hl' : Forall present l).
  { eapply Forall_impl; [|exact Hl]. intros x Hx. apply Hx. }
  pose proof (get_present _ _ _ Ht) as Hd.
  pose proof (get_is_field _ _ _ Ht) as Hf.
  assert (Hgt : gt (VStr (digits_of n)) (field data "total_pages") = (t <? n)).
  { rewrite Hf. unfold int. rewrite gt_number.
    change (to_number (VStr (digits_of n))) with (string_to_number (digits_of n)).
    rewrite (parses_digits_of n Hn). apply number_lt_integers. }
  split.
  - intros _ H. rewrite <- Hf at 1.
    apply (popular_tv_404 URLs request up _ data Hpage Hup Hd).
    rewrite Hgt. apply Z.ltb_lt, H.
  - intros H.
    apply (popular_tv_200 URLs request up _ data l Hpage Hup); try assumption.
    rewrite Hgt. apply Z.ltb_ge, H.
Qed.

Lemma popular_tv_decimal_page_witness :
  run (TvShows.popular_tv example_urls (request_with [] [("page", VStr "12")])) two_trending =
    (["https://api.themoviedb.org/3/tv/top_rated?language=en-US&page=12"],
     Ok {| status := int 404; body := out_of_range (VStr "12") (int 3) (int 42) |}).
Proof.
  refine (proj1 (popular_tv_decimal_page example_urls
                   (request_with [] [("page", VStr "12")]) two_trending 12 3
                   two_results two_items _ eq_refl eq_refl eq_refl eq_refl
                   two_items_pictured) _ _); [lia|reflexivity|lia].
Defined.

Lemma gt_undefined page : gt page VUndefined = false.
Proof. unfold gt. destruct (to_primitive page); reflexivity. Qed.

(** X13.  On the popular-TV route, for a request as Express delivers it
    and upstream results that are a list of items without null entries
    (their raw image paths absent, null, booleans or strings): when the
    upstream body has no [total_pages], no page is out of range; whatever
    page is asked for, the reply is the 200 page. *)
Theorem popular_tv_without_total_pages :
  forall URLs request up page data l,
    requested_page request page ->
    parsed_request request ->
    up (tmdb URLs ++ "/tv/top_rated?language=en-US&page=" ++ to_string page) = Ok data ->
    field data "total_pages" = VUndefined ->
    get data "results" = Ok (VArr l) ->
    Forall pictured l ->
    run (TvShows.popular_tv URLs request) up =
      ([tmdb URLs ++ "/tv/top_rated?language=en-US&page=" ++ to_string page],
       Ok {| status := int 200;
             body := page_of_shows data (List.map (with_images (image URLs)) l) |}).
Proof.
  intros URLs request up page data l Hpage _ Hup Ht Hres Hl.
  apply popular_tv_200; try assumption.
  - rewrite Ht. apply gt_undefined.
  - eapply Forall_impl; [|exact Hl]. intros x Hx. apply Hx.
Qed.

Lemma popular_tv_without_total_pages_witness :
  let data := VObj [("page", int 1); ("results", VArr two_items)] in
  run (TvShows.popular_tv example_urls (request_with [] [("page", VStr "999")]))
      (fun _ => Ok data) =
    (["https://api.themoviedb.org/3/tv/top_rated?language=en-US&page=999"],
     Ok {| status := int 200;
           body := page_of_shows data
                     (List.map (with_images "https://image.tmdb.org/t/p/original")
                               two_items) |}).
Proof.
  intros data.
  refine (popular_tv_without_total_pages example_urls
            (request_with [] [("page", VStr "999")]) (fun _ => Ok data) (VStr "999")
            data two_items _ eq_refl eq_refl eq_refl eq_refl two_items_pictured).
  left. split; [reflexivity|discriminate].
Defined.

(** * Images bodies a route cannot use *)

Lemma image_sublist_inv base data key out :
  present data ->
  (let* v := get data key in
   let* mapped :=
     (if nullish v then Ok VUndefined else
      let* first := slice v 30 in
      map first (fun x =>
        object [
          ("aspect_ratio", get x "aspect_ratio");
          ("height", get x "height");
          ("width", get x "width");
          ("file_path",
           let* p := get x "file_path" in Ok (concat base p))])) in
   Ok (or mapped (VArr [])))
  = Ok out ->
  image_source (field data key).
Proof.
  intros Hd H. rewrite (get_field _ _ Hd) in H. cbn [bind] in H.
  destruct (nullish (field data key)) eqn:Hn; [left; exact Hn|].
  right. destruct (field data key) as [| | | | |l|]; try discriminate.
  exists l. split; [reflexivity|].
  cbn [slice map bind] in H.
  destruct (mapM _ (firstn 30 l)) as [ys|e] eqn:Hm; [|discriminate H].
  apply mapM_ok_inv in Hm. eapply Forall_impl; [|exact Hm].
  intros x [y Hy]. destruct x; try reflexivity; discriminate Hy.
Qed.

Lemma images_fetch h url (B P : value -> result value) up data :
  In h classifiers -> up url = Ok data ->
  raises_type_error (B data) -> raises_type_error (P data) ->
  (forall b p, B data = Ok b -> P data = Ok p -> False) ->
  run (try_catch
         (fetched <- axios_get url ;;
          d <- lift (get fetched "data") ;;
          b <- lift (B d) ;;
          p <- lift (P d) ;;
          send (VObj [("backdrops", b); ("posters", p)])) h) up =
    ([url], Ok internal_error).
Proof.
  intros Hh Hup HB HP Hno.
  unfold run, try_catch, mbind, axios_get, lift, send, ret. rewrite Hup.
  cbn [get assoc String.eqb Ascii.eqb Bool.eqb].
  destruct (B data) as [b|e].
  - destruct (P data) as [p|e]; [destruct (Hno b p eq_refl eq_refl)|].
    destruct HP as [msg ->]. apply classifier_type_error, Hh.
  - destruct HB as [msg ->]. apply classifier_type_error, Hh.
Qed.

(** X6.  The images routes answer 500 "Internal Server Error.", after their
    one call, to every upstream body they cannot use: a null body, or one
    in which [backdrops] or [posters] is neither missing nor a list
    without null entries among its first 30. *)
Theorem images_unusable_body_is_internal_error :
  forall URLs request up data,
    ~ (present data /\ image_source (field data "backdrops") /\
       image_source (field data "posters")) ->
    (up (tmdb URLs ++ "/movie/" ++ to_string (param request "id") ++ "/images") = Ok data ->
     run (Movies.images_movie URLs request) up =
       ([tmdb URLs ++ "/movie/" ++ to_string (param request "id") ++ "/images"],
        Ok internal_error))
    /\
    (up (tmdb URLs ++ "/tv/" ++ to_string (param request "id") ++ "/images") = Ok data ->
     run (TvShows.images_tv URLs request) up =
       ([tmdb URLs ++ "/tv/" ++ to_string (param request "id") ++ "/images"],
        Ok internal_error)).
Proof.
  intros URLs request up data Hbad.
  split; intros Hup;
    first [unfold Movies.images_movie | unfold TvShows.images_tv]; cbv zeta;
    apply (images_fetch Movies.handleError _ _ _ up data); try classifier;
    try exact Hup; try solve [type_errors];
    intros b p Hb Hp; apply Hbad;
    (assert (Hd : present data)
       by (destruct data; try reflexivity; discriminate Hb));
    eauto using image_sublist_inv.
Qed.

Lemma images_unusable_body_is_internal_error_witness :
  ~ image_source (field text_backdrops "backdrops") /\
  run (TvShows.images_tv example_urls (request_with [("id", "550")] []))
      (fun _ => Ok text_backdrops) =
    (["https://api.themoviedb.org/3/tv/550/images"], Ok internal_error).
Proof.
  assert (Hno : ~ image_source (field text_backdrops "backdrops")).
  { intros [H|(l & H & _)]; discriminate H. }
  split; [exact Hno|].
  refine (proj2 (images_unusable_body_is_internal_error example_urls
                   (request_with [("id", "550")] []) (fun _ => Ok text_backdrops)
                   text_backdrops _) eq_refl).
  intros (_ & H & _). exact (Hno H).
Defined.

(** * Pages and totals given as strings *)



(** * Where the anime-by-id route puts its two fields *)

Lemma put_absent k v l : assoc k l = None -> put k v l = (l ++ [(k, v)])%list.
Proof.
  induction l as [|[k' v'] r IH]; simpl; [reflexivity|].
  destruct (String.eqb k' k); [discriminate|].
  intros H. rewrite (IH H). reflexivity.
Qed.

Lemma assoc_app_absent k l l' :
  assoc k l = None -> assoc k (l ++ l')%list = assoc k l'.
Proof.
  induction l as [|[k' v'] r IH]; simpl; [reflexivity|].
  destruct (String.eqb k' k); [discriminate|exact IH].
Qed.

(** X15.  When the detail object has no [images_data] and no [videos] of its
    own, the anime-by-id route answers with the fields of the detail
    object, in the upstream order and with the upstream values, followed
    by [images_data] and then [videos]. *)
Theorem anime_by_id_appends_two_fields :
  forall URLs request up id detail pictures pics videos,
    param request "id" = VStr id ->
    up (jikan URLs ++ "/anime/" ++ id) = Ok (VObj detail) ->
    up (jikan URLs ++ "/anime/" ++ id ++ "/pictures") = Ok pictures ->
    up (jikan URLs ++ "/anime/" ++ id ++ "/videos") = Ok videos ->
    get pictures "data" = Ok (VArr pics) ->
    Forall picture_source pics ->
    present videos ->
    assoc "images_data" detail = None ->
    assoc "videos" detail = None ->
    run (Anime.search_anime_id URLs request) up =
      ([jikan URLs ++ "/anime/" ++ id;
        jikan URLs ++ "/anime/" ++ id ++ "/pictures";
        jikan URLs ++ "/anime/" ++ id ++ "/videos"],
       Ok {| status := int 200;
             body :=
               VObj (detail ++
                     [("images_data",
                       VObj [("jpgs", VArr (List.map (picture_urls "jpg") pics));
                             ("webp", VArr (List.map (picture_urls "webp") pics))]);
                      ("videos", field videos "data")])%list |}).
Proof.
  intros URLs request up id detail pictures pics videos
         Hid Hdetail Hpictures Hvideos Hpics Hsrc Hv Hi Hvd.
  unfold run, Anime.search_anime_id, try_catch, mbind, axios_get, lift, send, ret.
  rewrite Hid. cbn [to_string].
  rewrite Hdetail, Hpictures, Hvideos.
  cbn [path get assoc String.eqb Ascii.eqb Bool.eqb bind].
  rewrite Hpics, (get_field videos "data" Hv).
  cbn [bind object object_from map].
  rewrite (mapM_map _ (picture_urls "jpg")).
  2:{ eapply Forall_impl; [|exact Hsrc]. intros p (Hp & Hj & _).
      apply (picture_object "jpg"); assumption. }
  rewrite (mapM_map _ (picture_urls "webp")).
  2:{ eapply Forall_impl; [|exact Hsrc]. intros p (Hp & _ & Hw).
      apply (picture_object "webp"); assumption. }
  cbn [bind put set app].
  rewrite (put_absent "images_data" _ detail Hi).
  rewrite put_absent.
  - rewrite <- app_assoc. reflexivity.
  - rewrite (assoc_app_absent _ _ _ Hvd). reflexivity.
Qed.

Lemma anime_by_id_appends_two_fields_witness :
  Forall picture_source bebop_pictures /\
  run (Anime.search_anime_id example_urls (request_with [("id", "1")] [])) bebop_upstream =
    (["https://api.jikan.moe/v4/anime/1";
      "https://api.jikan.moe/v4/anime/1/pictures";
      "https://api.jikan.moe/v4/anime/1/videos"],
     Ok {| status := int 200;
           body :=
             VObj [("data", one_anime);
                   ("images_data",
                    VObj [("jpgs", VArr (List.map (picture_urls "jpg") bebop_pictures));
                          ("webp", VArr (List.map (picture_urls "webp") bebop_pictures))]);
                   ("videos", VObj [("promo", VArr []); ("episodes", VArr [])])] |}).
Proof.
  assert (Hsrc : Forall picture_source bebop_pictures).
  { repeat constructor. }
  split; [exact Hsrc|].
  exact (anime_by_id_appends_two_fields example_urls (request_with [("id", "1")] [])
           bebop_upstream "1" bebop_detail (VObj [("data", VArr bebop_pictures)])
           bebop_pictures bebop_videos eq_refl eq_refl eq_refl eq_refl eq_refl
           Hsrc eq_refl eq_refl eq_refl).
Defined.
